(** * The authentication panel and the dashboard of my-auth-app

    A shallow embedding of [src/components/AuthPanel.jsx] and
    [src/components/Dashboard.jsx]: the component state, the event
    handlers, the axios response interceptor, the asynchronous
    submission (split at its [await]) and the conditions under which
    each control is rendered. *)

From Stdlib Require Import NArith Ascii.
From stdpp Require Import gmap strings list fin_maps.

Local Open Scope N_scope.

(** ** JavaScript strings

    A JavaScript string is a sequence of UTF-16 code units.  Property
    names written in the source ([email], [token], ...) are kept as Rocq
    strings; the values the program handles are code-unit lists. *)

Module JS.

Abbreviation jsstring := (list N).

(** An ASCII literal of the source as a code-unit list. *)
Fixpoint lit (s : string) : jsstring :=
  match s with
  | EmptyString => []
  | String a s' => Ascii.N_of_ascii a :: lit s'
  end.

(** [Boolean(s)] for a string: only the empty string is falsy. *)
Definition truthy (s : jsstring) : bool :=
  match s with [] => false | _ :: _ => true end.

(** [Boolean(v)] where [v] is a string or [undefined]. *)
Definition truthy_opt (v : option jsstring) : bool :=
  match v with Some s => truthy s | None => false end.

(** [a || b] where [a] may be [undefined]. *)
Definition or_else (a : option jsstring) (b : jsstring) : jsstring :=
  match a with
  | Some s => if truthy s then s else b
  | None => b
  end.

(** [String(v)] for a string or [undefined]. *)
Definition ToString (v : option jsstring) : jsstring :=
  match v with Some s => s | None => lit "undefined" end.

(** ECMAScript WhiteSpace and LineTerminator code points: what
    [String.prototype.trim] strips and what [\s] matches. *)
Definition is_space (c : N) : bool :=
  (c =? 9) || (c =? 10) || (c =? 11) || (c =? 12) || (c =? 13) || (c =? 32)
  || (c =? 160) || (c =? 5760) || ((8192 <=? c) && (c <=? 8202))
  || (c =? 8232) || (c =? 8233) || (c =? 8239) || (c =? 8287)
  || (c =? 12288) || (c =? 65279).

Fixpoint trimStart (s : jsstring) : jsstring :=
  match s with
  | c :: s' => if is_space c then trimStart s' else s
  | [] => []
  end.

Definition trim (s : jsstring) : jsstring :=
  rev (trimStart (rev (trimStart s))).

(** *** Regular expressions (the fragment the source uses) *)

Inductive regex : Type :=
| RNone
| REps
| RClass (p : N -> bool)
| RSeq (r1 r2 : regex)
| RAlt (r1 r2 : regex)
| RStar (r : regex).

Definition RPlus (r : regex) : regex := RSeq r (RStar r).

Fixpoint nullable (r : regex) : bool :=
  match r with
  | RNone => false
  | REps => true
  | RClass _ => false
  | RSeq r1 r2 => nullable r1 && nullable r2
  | RAlt r1 r2 => nullable r1 || nullable r2
  | RStar _ => true
  end.

Fixpoint deriv (c : N) (r : regex) : regex :=
  match r with
  | RNone => RNone
  | REps => RNone
  | RClass p => if p c then REps else RNone
  | RSeq r1 r2 =>
      if nullable r1
      then RAlt (RSeq (deriv c r1) r2) (deriv c r2)
      else RSeq (deriv c r1) r2
  | RAlt r1 r2 => RAlt (deriv c r1) (deriv c r2)
  | RStar r1 => RSeq (deriv c r1) (RStar r1)
  end.

(** Some prefix of [s] matches [r]. *)
Fixpoint matches_prefix (r : regex) (s : jsstring) : bool :=
  nullable r ||
  match s with
  | [] => false
  | c :: s' => matches_prefix (deriv c r) s'
  end.

(** [r.test(s)] for a regex without flags: a match may start anywhere. *)
Fixpoint test (r : regex) (s : jsstring) : bool :=
  matches_prefix r s ||
  match s with
  | [] => false
  | _ :: s' => test r s'
  end.

(** The language of a regex, as a relation. *)
Inductive Matches : regex -> jsstring -> Prop :=
| MEps : Matches REps []
| MClass p c : p c = true -> Matches (RClass p) [c]
| MSeq r1 r2 s1 s2 : Matches r1 s1 -> Matches r2 s2 -> Matches (RSeq r1 r2) (s1 ++ s2)
| MAltL r1 r2 s : Matches r1 s -> Matches (RAlt r1 r2) s
| MAltR r1 r2 s : Matches r2 s -> Matches (RAlt r1 r2) s
| MStar0 r : Matches (RStar r) []
| MStarS r s1 s2 : Matches r s1 -> Matches (RStar r) s2 -> Matches (RStar r) (s1 ++ s2).

End JS.

Import JS.

(** ** axios: requests, responses and errors *)

(** The JSON body of a response, as far as the client reads it. *)
Record ResponseData := {
  token : option jsstring;
  msg : option jsstring
}.

Record Response := {
  status : N;
  data : option ResponseData
}.

(** An axios error as the response interceptor sees it. *)
Record AxiosError := {
  code : option jsstring;
  response : option Response;
  request : bool;
  customMessage : option jsstring
}.

Definition ERR_NETWORK : jsstring := lit "ERR_NETWORK".
Definition ECONNABORTED : jsstring := lit "ECONNABORTED".

Definition msgUnableToConnect : jsstring :=
  lit "Unable to connect to the server. Please make sure the backend is running.".
Definition msgTimedOut : jsstring := lit "Request timed out. Please try again.".
Definition msgServerError : jsstring := lit "Server error occurred.".
Definition msgNoResponse : jsstring :=
  lit "No response from server. Please check your network connection.".
Definition msgProcessing : jsstring :=
  lit "An error occurred while processing your request.".
Definition msgAnErrorOccurred : jsstring := lit "An error occurred".

Definition withCustomMessage (m : jsstring) (error : AxiosError) : AxiosError :=
  {| code := code error; response := response error;
     request := request error; customMessage := Some m |}.

(** [error.response.data?.msg] and [err.response?.data?.msg]. *)
Definition response_msg (r : Response) : option jsstring :=
  d ← data r; msg d.

(** The rejection handler of [api.interceptors.response]. *)
Definition responseInterceptor (error : AxiosError) : AxiosError :=
  if bool_decide (code error = Some ERR_NETWORK) then
    withCustomMessage msgUnableToConnect error
  else if bool_decide (code error = Some ECONNABORTED) then
    withCustomMessage msgTimedOut error
  else match response error with
       | Some r => withCustomMessage (or_else (response_msg r) msgServerError) error
       | None =>
           if request error then withCustomMessage msgNoResponse error
           else withCustomMessage msgProcessing error
       end.

(** ** The AuthPanel component *)

(** The two values [activeTab] is ever set to: ['login'] and ['signup']. *)
Inductive Tab := login | signup.

#[global] Instance Tab_eq_dec : EqDecision Tab.
Proof. solve_decision. Defined.

(** The [useState] cells of [AuthPanel]. *)
Record AuthPanel := {
  activeTab : Tab;
  showForgotPassword : bool;
  formData : gmap string jsstring;
  errors : gmap string jsstring;
  isLoading : bool;
  resetSuccess : bool;
  authError : jsstring
}.

Definition setActiveTab (t : Tab) (st : AuthPanel) : AuthPanel :=
  {| activeTab := t; showForgotPassword := showForgotPassword st;
     formData := formData st; errors := errors st; isLoading := isLoading st;
     resetSuccess := resetSuccess st; authError := authError st |}.

Definition setShowForgotPassword (v : bool) (st : AuthPanel) : AuthPanel :=
  {| activeTab := activeTab st; showForgotPassword := v;
     formData := formData st; errors := errors st; isLoading := isLoading st;
     resetSuccess := resetSuccess st; authError := authError st |}.

Definition setFormData (f : gmap string jsstring -> gmap string jsstring)
    (st : AuthPanel) : AuthPanel :=
  {| activeTab := activeTab st; showForgotPassword := showForgotPassword st;
     formData := f (formData st); errors := errors st; isLoading := isLoading st;
     resetSuccess := resetSuccess st; authError := authError st |}.

Definition setErrors (f : gmap string jsstring -> gmap string jsstring)
    (st : AuthPanel) : AuthPanel :=
  {| activeTab := activeTab st; showForgotPassword := showForgotPassword st;
     formData := formData st; errors := f (errors st); isLoading := isLoading st;
     resetSuccess := resetSuccess st; authError := authError st |}.

Definition setIsLoading (v : bool) (st : AuthPanel) : AuthPanel :=
  {| activeTab := activeTab st; showForgotPassword := showForgotPassword st;
     formData := formData st; errors := errors st; isLoading := v;
     resetSuccess := resetSuccess st; authError := authError st |}.

Definition setResetSuccess (v : bool) (st : AuthPanel) : AuthPanel :=
  {| activeTab := activeTab st; showForgotPassword := showForgotPassword st;
     formData := formData st; errors := errors st; isLoading := isLoading st;
     resetSuccess := v; authError := authError st |}.

Definition setAuthError (m : jsstring) (st : AuthPanel) : AuthPanel :=
  {| activeTab := activeTab st; showForgotPassword := showForgotPassword st;
     formData := formData st; errors := errors st; isLoading := isLoading st;
     resetSuccess := resetSuccess st; authError := m |}.

(** The initial values handed to [useState]. *)
Definition initialFormData : gmap string jsstring :=
  <["name" := []]> (<["email" := []]> (<["password" := []]>
    (<["confirmPassword" := []]> (<["resetEmail" := []]> ∅)))).

Definition initialPanel : AuthPanel :=
  {| activeTab := login; showForgotPassword := false;
     formData := initialFormData; errors := ∅; isLoading := false;
     resetSuccess := false; authError := [] |}.

(** [formData.k].  The five keys of [initialFormData] are never removed
    (see [reachable_formData_keys]), so the read is always defined. *)
Definition field (fd : gmap string jsstring) (k : string) : jsstring :=
  default [] (fd !! k).

(** [handleInputChange], with [name] and [value] taken from [e.target]. *)
Definition handleInputChange (name : string) (value : jsstring)
    (st : AuthPanel) : AuthPanel :=
  let st := setFormData (fun prev => <[name := value]> prev) st in
  if truthy_opt (errors st !! name)
  then setErrors (fun prev => delete name prev) st
  else st.

(** [/\S+@\S+\.\S+/] *)
Definition nonspace : regex := RClass (fun c => negb (is_space c)).
Definition emailPattern : regex :=
  RSeq (RPlus nonspace)
    (RSeq (RClass (N.eqb 64))
      (RSeq (RPlus nonspace)
        (RSeq (RClass (N.eqb 46)) (RPlus nonspace)))).

(** The object [newErrors] that [validateForm] builds. *)
Definition newErrors (st : AuthPanel) : gmap string jsstring :=
  let fd := formData st in
  let newErrors : gmap string jsstring := ∅ in
  let newErrors :=
    if showForgotPassword st then
      if negb (truthy (trim (field fd "resetEmail"))) then
        <["resetEmail" := lit "Email is required"]> newErrors
      else if negb (test emailPattern (field fd "resetEmail")) then
        <["resetEmail" := lit "Email is invalid"]> newErrors
      else newErrors
    else if bool_decide (activeTab st = signup) then
      let newErrors :=
        if negb (truthy (trim (field fd "name")))
        then <["name" := lit "Name is required"]> newErrors
        else newErrors in
      if negb (bool_decide (field fd "password" = field fd "confirmPassword"))
      then <["confirmPassword" := lit "Passwords do not match"]> newErrors
      else newErrors
    else newErrors in
  if negb (showForgotPassword st) then
    let newErrors :=
      if negb (truthy (trim (field fd "email"))) then
        <["email" := lit "Email is required"]> newErrors
      else if negb (test emailPattern (field fd "email")) then
        <["email" := lit "Email is invalid"]> newErrors
      else newErrors in
    if negb (truthy (field fd "password")) then
      <["password" := lit "Password is required"]> newErrors
    else if N.of_nat (length (field fd "password")) <? 6 then
      <["password" := lit "Password must be at least 6 characters"]> newErrors
    else newErrors
  else newErrors.

(** [validateForm]: the state after [setErrors(newErrors)] and the
    returned boolean. *)
Definition validateForm (st : AuthPanel) : AuthPanel * bool :=
  let newErrors := newErrors st in
  (setErrors (fun _ => newErrors) st, bool_decide (size newErrors = 0%nat)).

(** ** The page: component, local storage, location, requests in flight *)

(** What the continuation of a suspended [handleSubmit] still holds:
    the variables its closure captured and the request it awaits. *)
Record Pending := {
  closure_showForgotPassword : bool;
  closure_activeTab : Tab;
  endpoint : jsstring;
  payload : gmap string jsstring
}.

Record Browser := {
  panel : AuthPanel;
  localStorage : gmap string jsstring;
  (** the value assigned to [window.location.href], if any *)
  href : option jsstring;
  inflight : list Pending
}.

Definition withPanel (f : AuthPanel -> AuthPanel) (b : Browser) : Browser :=
  {| panel := f (panel b); localStorage := localStorage b;
     href := href b; inflight := inflight b |}.

Definition setItem (k : string) (v : jsstring) (b : Browser) : Browser :=
  {| panel := panel b; localStorage := <[k := v]> (localStorage b);
     href := href b; inflight := inflight b |}.

Definition removeItem (k : string) (b : Browser) : Browser :=
  {| panel := panel b; localStorage := delete k (localStorage b);
     href := href b; inflight := inflight b |}.

Definition setHref (u : jsstring) (b : Browser) : Browser :=
  {| panel := panel b; localStorage := localStorage b;
     href := Some u; inflight := inflight b |}.

Definition setInflight (l : list Pending) (b : Browser) : Browser :=
  {| panel := panel b; localStorage := localStorage b;
     href := href b; inflight := l |}.

(** The call [api.post(endpoint, payload)] that [handleSubmit] makes. *)
Definition submission (st : AuthPanel) : Pending :=
  let fd := formData st in
  if showForgotPassword st then
    {| closure_showForgotPassword := true; closure_activeTab := activeTab st;
       endpoint := lit "/auth/forgot-password";
       payload := <["email" := field fd "resetEmail"]> ∅ |}
  else
    {| closure_showForgotPassword := false; closure_activeTab := activeTab st;
       endpoint := if bool_decide (activeTab st = login)
                   then lit "/auth/login" else lit "/auth/register";
       payload := if bool_decide (activeTab st = login)
                  then <["email" := field fd "email"]>
                         (<["password" := field fd "password"]> ∅)
                  else <["name" := field fd "name"]>
                         (<["email" := field fd "email"]>
                           (<["password" := field fd "password"]> ∅)) |}.

(** [handleSubmit] up to its [await]: clear the auth error, validate,
    and on a valid form set the loading flag and send the request. *)
Definition handleSubmit (b : Browser) : Browser :=
  let b := withPanel (setAuthError []) b in
  let '(st, ok) := validateForm (panel b) in
  let b := withPanel (fun _ => st) b in
  if ok then
    let b := withPanel (setIsLoading true) b in
    setInflight (inflight b ++ [submission st]) b
  else b.

(** How the awaited promise settles. *)
Inductive Outcome :=
| Fulfilled (r : Response)
| Rejected (e : AxiosError).

(** What the [catch] clause can receive: an axios error that went through
    the response interceptor, or the [TypeError] of reading [token] from
    a missing body. *)
Inductive Thrown :=
| ThrownAxios (e : AxiosError)
| ThrownTypeError.

Definition or_opt (a b : option jsstring) : option jsstring :=
  if truthy_opt a then a else b.

(** [err.customMessage || err.response?.data?.msg || 'An error occurred'] *)
Definition catchMessage (err : Thrown) : jsstring :=
  match err with
  | ThrownAxios e =>
      or_else (or_opt (customMessage e) (r ← response e; response_msg r))
              msgAnErrorOccurred
  | ThrownTypeError => msgAnErrorOccurred
  end.

(** The [try] block after the [await]: either it completes or it throws. *)
Definition afterAwait (p : Pending) (o : Outcome) (b : Browser) : Browser + Thrown :=
  match o with
  | Rejected e => inr (ThrownAxios (responseInterceptor e))
  | Fulfilled r =>
      if closure_showForgotPassword p then
        inl (withPanel (setResetSuccess true) b)
      else
        match data r with
        | None => inr ThrownTypeError
        | Some d =>
            let b := setItem "token" (ToString (token d)) b in
            inl (setHref (lit "/dashboard") b)
        end
  end.

(** [handleSubmit] from its [await] on: [try], [catch], [finally]. *)
Definition resumeSubmit (p : Pending) (o : Outcome) (b : Browser) : Browser :=
  let b := match afterAwait p o b with
           | inl b' => b'
           | inr err => withPanel (setAuthError (catchMessage err)) b
           end in
  withPanel (setIsLoading false) b.

Definition handleForgotPassword (st : AuthPanel) : AuthPanel :=
  setAuthError [] (setResetSuccess false (setErrors (fun _ => ∅)
    (setShowForgotPassword true st))).

Definition handleBackToLogin (st : AuthPanel) : AuthPanel :=
  setAuthError [] (setResetSuccess false (setErrors (fun _ => ∅)
    (setShowForgotPassword false st))).

(** ** What the component renders *)

Inductive Element :=
| TabButtons                       (* "Sign In" / "Register" header *)
| ErrorBox                         (* the [authError] banner *)
| EmailSentPanel                   (* "Email Sent!" with its "Back to Login" button *)
| Input (name : string)            (* an [InputField] of the form *)
| SubmitButton (disabled : bool)
| ForgotPasswordLink               (* "Forgot your password?" *)
| SwitchLink                       (* "Register" / "Sign In" under the form *)
| BackToLoginLink                  (* "<- Back to Login" *)
| SocialButtons.

#[global] Instance Element_eq_dec : EqDecision Element.
Proof. solve_decision. Defined.

Definition when (c : bool) (l : list Element) : list Element :=
  if c then l else [].

(** The conditional structure of the JSX returned by [AuthPanel]. *)
Definition render (st : AuthPanel) : list Element :=
  let isSignup := bool_decide (activeTab st = signup) in
  let isLogin := bool_decide (activeTab st = login) in
  when (negb (showForgotPassword st)) [TabButtons]
  ++ when (truthy (authError st)) [ErrorBox]
  ++ (if resetSuccess st then [EmailSentPanel]
      else
        (if showForgotPassword st then [Input "resetEmail"]
         else when isSignup [Input "name"]
              ++ [Input "email"; Input "password"]
              ++ when isSignup [Input "confirmPassword"])
        ++ [SubmitButton (isLoading st)])
  ++ when (negb (showForgotPassword st) && negb (resetSuccess st))
       (when isLogin [ForgotPasswordLink] ++ [SwitchLink])
  ++ when (showForgotPassword st && negb (resetSuccess st)) [BackToLoginLink]
  ++ when (negb (showForgotPassword st) && negb (resetSuccess st)) [SocialButtons].

Definition rendered (e : Element) (st : AuthPanel) : bool :=
  bool_decide (e ∈ render st).

(** The four views of the panel, told apart by what the body shows. *)
Inductive View := LoginView | SignupView | ForgotPasswordView | ResetSuccessView.

#[global] Instance View_eq_dec : EqDecision View.
Proof. solve_decision. Defined.

Definition shows (st : AuthPanel) (v : View) : bool :=
  match v with
  | ResetSuccessView => rendered EmailSentPanel st
  | ForgotPasswordView => rendered (Input "resetEmail") st
  | SignupView => rendered (Input "confirmPassword") st
  | LoginView => rendered (Input "email") st
                 && negb (rendered (Input "confirmPassword") st)
  end.

(** The same, read off the state cells. *)
Definition mode (st : AuthPanel) : View :=
  if resetSuccess st then ResetSuccessView
  else if showForgotPassword st then ForgotPasswordView
  else if bool_decide (activeTab st = signup) then SignupView
  else LoginView.

(** ** Events *)

Inductive Event :=
| ClickSignInTab
| ClickRegisterTab
| ClickSwitch
| ClickForgotPassword
| ClickBackToLogin
| Change (name : string) (value : jsstring)
| Submit
| Settle (i : nat) (o : Outcome).

(** An event can occur only on a control that is on the page and not
    disabled; a request can settle only while it is in flight.  Once
    [window.location.href] has been assigned the page is left. *)
Definition enabled (ev : Event) (b : Browser) : bool :=
  bool_decide (href b = None) &&
  match ev with
  | ClickSignInTab | ClickRegisterTab => rendered TabButtons (panel b)
  | ClickSwitch => rendered SwitchLink (panel b)
  | ClickForgotPassword => rendered ForgotPasswordLink (panel b)
  | ClickBackToLogin =>
      rendered EmailSentPanel (panel b) || rendered BackToLoginLink (panel b)
  | Change name _ => rendered (Input name) (panel b)
  | Submit => rendered (SubmitButton false) (panel b)
  | Settle i _ => bool_decide (is_Some (inflight b !! i))
  end.

(** The handler attached to each control. *)
Definition handle (ev : Event) (b : Browser) : Browser :=
  match ev with
  | ClickSignInTab => withPanel (setActiveTab login) b
  | ClickRegisterTab => withPanel (setActiveTab signup) b
  | ClickSwitch =>
      withPanel (fun st => setActiveTab
        (if bool_decide (activeTab st = login) then signup else login) st) b
  | ClickForgotPassword => withPanel handleForgotPassword b
  | ClickBackToLogin => withPanel handleBackToLogin b
  | Change name value => withPanel (handleInputChange name value) b
  | Submit => handleSubmit b
  | Settle i o =>
      match inflight b !! i with
      | Some p => resumeSubmit p o (setInflight (delete i (inflight b)) b)
      | None => b
      end
  end.

Definition step (ev : Event) (b : Browser) : Browser :=
  if enabled ev b then handle ev b else b.

Definition run (evs : list Event) (b : Browser) : Browser :=
  foldl (fun b ev => step ev b) b evs.

(** The page as first mounted, over whatever local storage holds. *)
Definition mount (ls : gmap string jsstring) : Browser :=
  {| panel := initialPanel; localStorage := ls; href := None; inflight := [] |}.

Inductive reachable : Browser -> Prop :=
| reachable_mount ls : reachable (mount ls)
| reachable_step ev b : reachable b -> reachable (step ev b).

(** The transitions of the form state machine listed in the design. *)
Definition listed (m m' : View) : bool :=
  match m, m' with
  | LoginView, SignupView | SignupView, LoginView
  | LoginView, ForgotPasswordView
  | ForgotPasswordView, ResetSuccessView
  | ForgotPasswordView, LoginView
  | ResetSuccessView, LoginView => true
  | _, _ => false
  end.

(** ** The Dashboard component *)

Module Dashboard.

Record User := {
  name : jsstring;
  email : jsstring;
  createdAt : jsstring
}.

Record State := {
  user : option User;
  loading : bool
}.

Definition initial : State := {| user := None; loading := true |}.

(** The mount effect; [now] is [new Date().toISOString()].  Returns the
    component state and the value assigned to [window.location.href]. *)
Definition effect (now : jsstring) (ls : gmap string jsstring)
    (st : State) : State * option jsstring :=
  let token := ls !! "token" in
  if negb (truthy_opt token) then (st, Some (lit "/"))
  else
    ({| user := Some {| name := lit "Demo User";
                        email := lit "user@example.com";
                        createdAt := now |};
        loading := false |}, None).

(** [handleLogout]: the storage afterwards and the new location. *)
Definition handleLogout (ls : gmap string jsstring)
    : gmap string jsstring * jsstring :=
  (delete "token" ls, lit "/").

(** What the component shows: the spinner, or the profile fields. *)
Inductive Output :=
| Spinner
| Profile (fullName emailAddress memberSince : option jsstring).

Definition render (st : State) : Output :=
  if loading st then Spinner
  else Profile (name <$> user st) (email <$> user st) (createdAt <$> user st).

(** Mounting the dashboard over a given storage. *)
Definition mounted (now : jsstring) (ls : gmap string jsstring)
    : Output * option jsstring :=
  let '(st, redirect) := effect now ls initial in
  (render st, redirect).

End Dashboard.

(** ** Scenarios and auxiliary notions *)

(** A 200 answer carrying a token, and one with an empty JSON object. *)
Definition tokenResponse (t : jsstring) : Response :=
  {| status := 200; data := Some {| token := Some t; msg := None |} |}.

Definition emptyResponse : Response :=
  {| status := 200; data := Some {| token := None; msg := None |} |}.

(** A password reset carried through: open the reset form, type an
    address, submit, and the service answers 200. *)
Definition resetCarriedThrough : list Event :=
  [ClickForgotPassword; Change "resetEmail" (lit "user@example.com");
   Submit; Settle 0 (Fulfilled emptyResponse)].

(** The field whose address the current mode validates. *)
Definition emailKey (st : AuthPanel) : string :=
  if showForgotPassword st then "resetEmail" else "email".

(** Typing an ASCII text into the field [name]. *)
Definition typed (name : string) (value : string) : Event :=
  Change name (lit value).

(** Every recorded message is a non-empty string. *)
Definition messages_nonempty (errs : gmap string jsstring) : Prop :=
  map_Forall (fun _ m => truthy m = true) errs.

(** The requests in flight and the loading flag go together. *)
Definition loading_tracks_inflight (b : Browser) : Prop :=
  (length (inflight b) <= 1)%nat
  /\ (inflight b <> [] -> isLoading (panel b) = true).

(** A login submitted and not yet answered. *)
Definition loginSubmitted : list Event :=
  [typed "email" "user@example.com"; typed "password" "secret1"; Submit].

(** axios errors: the connection was refused; the server answered 400. *)
Definition connectionRefused : AxiosError :=
  {| code := Some ERR_NETWORK; response := None; request := true;
     customMessage := None |}.

Definition invalidCredentials : AxiosError :=
  {| code := Some (lit "ERR_BAD_REQUEST");
     response := Some {| status := 400;
                         data := Some {| token := None;
                                         msg := Some (lit "Invalid credentials") |} |};
     request := true; customMessage := None |}.

(** The cells the view depends on. *)
Definition flags (st : AuthPanel) : Tab * bool * bool :=
  (activeTab st, showForgotPassword st, resetSuccess st).

(** The flag combinations of the four designed states: [resetSuccess] is
    set only inside the reset flow, and the reset flow is entered from the
    login tab. *)
Definition designed (st : AuthPanel) : Prop :=
  (resetSuccess st = true -> showForgotPassword st = true)
  /\ (showForgotPassword st = true -> activeTab st = login).

(** A reset request answered after the reset form was left. *)
Definition late (ev : Event) (b : Browser) : bool :=
  match ev with
  | Settle i (Fulfilled _) =>
      match inflight b !! i with
      | Some p => closure_showForgotPassword p
                  && negb (showForgotPassword (panel b))
      | None => false
      end
  | _ => false
  end.

(** The states reached when no reset request is answered late. *)
Inductive reachable_on_time : Browser -> Prop :=
| on_time_mount ls : reachable_on_time (mount ls)
| on_time_step ev b :
    reachable_on_time b -> late ev b = false -> reachable_on_time (step ev b).

(** The reset form is left while its request is in flight. *)
Definition resetLeftInFlight : list Event :=
  [ClickForgotPassword; typed "resetEmail" "user@example.com"; Submit;
   ClickBackToLogin].

(** ** The InputField component *)

Module InputField.

(** The three border classes of the [input] element. *)
Inductive Border := BorderRed | BorderCyan | BorderGray.

(** The props the component reads ([error] may be [undefined]). *)
Record Props := {
  value : jsstring;
  error : option jsstring
}.

(** What the component shows for given props and [focused] state. *)
Record Shown := {
  border : Border;
  labelRaised : bool;
  errorText : option jsstring
}.

Definition render (focused : bool) (p : Props) : Shown :=
  {| border := if truthy_opt (error p) then BorderRed
               else if focused || truthy (value p) then BorderCyan
               else BorderGray;
     labelRaised := focused || truthy (value p);
     errorText := if truthy_opt (error p) then error p else None |}.

End InputField.

(** The props [AuthPanel] hands to the [InputField] named [name]:
    [value={formData.name}] and [error={errors.name}]. *)
Definition inputProps (name : string) (st : AuthPanel) : InputField.Props :=
  {| InputField.value := field (formData st) name;
     InputField.error := errors st !! name |}.

(** [s.startsWith(sub)] and [s.includes(sub)]. *)
Fixpoint startsWith (s sub : jsstring) : bool :=
  match sub, s with
  | [], _ => true
  | c :: sub', d :: s' => (c =? d) && startsWith s' sub'
  | _ :: _, [] => false
  end.

Fixpoint includes (s sub : jsstring) : bool :=
  startsWith s sub ||
  match s with
  | [] => false
  | _ :: s' => includes s' sub
  end.

(** Whether the error banner carries the line "Make sure your backend
    server is running on port 5000." *)
Definition portHint (st : AuthPanel) : bool :=
  truthy (authError st)
  && includes (authError st) (lit "Unable to connect to the server").

(** The entry [validateForm] records for an address, a password. *)
Definition emailError (v : jsstring) : option jsstring :=
  if negb (truthy (trim v)) then Some (lit "Email is required")
  else if negb (test emailPattern v) then Some (lit "Email is invalid")
  else None.

Definition passwordError (v : jsstring) : option jsstring :=
  if negb (truthy v) then Some (lit "Password is required")
  else if N.of_nat (length v) <? 6
       then Some (lit "Password must be at least 6 characters")
  else None.

(** The entry of [newErrors] under each key, field by field. *)
Definition fieldError (st : AuthPanel) (k : string) : option jsstring :=
  let fd := formData st in
  let isSignup := negb (showForgotPassword st)
                  && bool_decide (activeTab st = signup) in
  if bool_decide (k = "resetEmail") then
    if showForgotPassword st then emailError (field fd "resetEmail") else None
  else if bool_decide (k = "email") then
    if showForgotPassword st then None else emailError (field fd "email")
  else if bool_decide (k = "password") then
    if showForgotPassword st then None else passwordError (field fd "password")
  else if bool_decide (k = "name") then
    if isSignup && negb (truthy (trim (field fd "name")))
    then Some (lit "Name is required") else None
  else if bool_decide (k = "confirmPassword") then
    if isSignup
       && negb (bool_decide (field fd "password" = field fd "confirmPassword"))
    then Some (lit "Passwords do not match") else None
  else None.

(** The names of the five form fields. *)
Definition fieldNames : list string :=
  ["name"; "email"; "password"; "confirmPassword"; "resetEmail"].

(** What holds of the request a valid form sends. *)
Definition validated (p : Pending) : Prop :=
  endpoint p ∈ [lit "/auth/forgot-password"; lit "/auth/login";
                lit "/auth/register"]
  /\ (closure_showForgotPassword p = true
      <-> endpoint p = lit "/auth/forgot-password")
  /\ truthy (trim (field (payload p) "email")) = true
  /\ test emailPattern (field (payload p) "email") = true
  /\ (closure_showForgotPassword p = false ->
        (6 <= length (field (payload p) "password"))%nat)
  /\ payload p !! "confirmPassword" = None.

(** An axios error for a request that got no response. *)
Definition noResponse : AxiosError :=
  {| code := Some (lit "ERR_FAILED"); response := None; request := true;
     customMessage := None |}.

(** The entries [validateForm] can record. *)
Definition knownErrors : list (string * jsstring) :=
  [("resetEmail", lit "Email is required");
   ("resetEmail", lit "Email is invalid");
   ("name", lit "Name is required");
   ("confirmPassword", lit "Passwords do not match");
   ("email", lit "Email is required");
   ("email", lit "Email is invalid");
   ("password", lit "Password is required");
   ("password", lit "Password must be at least 6 characters")].

(** * Properties *)

(** ** The regular-expression matcher *)

Lemma Matches_nil_nullable r s : Matches r s -> s = [] -> nullable r = true.
Proof.
  induction 1 as [|p c Hc|r1 r2 s1 s2 _ IH1 _ IH2|r1 r2 s _ IH|r1 r2 s _ IH
                 |r|r s1 s2 _ _ _ _]; intros Hs; cbn; try done.
  - apply app_eq_nil in Hs as [-> ->]. by rewrite IH1, IH2.
  - by rewrite IH.
  - rewrite IH by done. apply orb_true_r.
Qed.

Lemma nullable_Matches r : nullable r = true <-> Matches r [].
Proof.
  split; [|intros H; by eapply Matches_nil_nullable].
  induction r as [| |p|r1 IH1 r2 IH2|r1 IH1 r2 IH2|r IH]; cbn; intros Hn; try done.
  - constructor.
  - apply andb_prop in Hn as [H1 H2].
    change (@nil N) with (@nil N ++ []). constructor; auto.
  - apply orb_prop in Hn as [H1|H2]; [apply MAltL|apply MAltR]; auto.
  - constructor.
Qed.

Lemma deriv_sound c r s : Matches (deriv c r) s -> Matches r (c :: s).
Proof.
  revert s.
  induction r as [| |p|r1 IH1 r2 IH2|r1 IH1 r2 IH2|r IH]; cbn; intros s Hm.
  - inversion Hm.
  - inversion Hm.
  - destruct (p c) eqn:Hp; inversion Hm; subst. by constructor.
  - destruct (nullable r1) eqn:Hn.
    + inversion Hm as [| | | ? ? ? Hl | ? ? ? Hr | |]; subst.
      * inversion Hl as [| |? ? s1 s2 H1 H2| | | |]; subst.
        change (c :: s1 ++ s2) with ((c :: s1) ++ s2). constructor; auto.
      * change (c :: s) with ([] ++ c :: s).
        constructor; [by apply nullable_Matches|auto].
    + inversion Hm as [| |? ? s1 s2 H1 H2| | | |]; subst.
      change (c :: s1 ++ s2) with ((c :: s1) ++ s2). constructor; auto.
  - inversion Hm; subst; [apply MAltL|apply MAltR]; auto.
  - inversion Hm as [| |? ? s1 s2 H1 H2| | | |]; subst.
    change (c :: s1 ++ s2) with ((c :: s1) ++ s2). constructor; auto.
Qed.

Lemma deriv_complete c r w :
  Matches r w -> forall s, w = c :: s -> Matches (deriv c r) s.
Proof.
  induction 1 as [|p c' Hc|r1 r2 s1 s2 H1 IH1 H2 IH2|r1 r2 s' _ IH|r1 r2 s' _ IH
                 |r|r s1 s2 H1 IH1 H2 IH2]; intros s Hw; cbn.
  - discriminate.
  - injection Hw as -> <-. rewrite Hc. constructor.
  - destruct s1 as [|c1 s1]; cbn in Hw.
    + rewrite (Matches_nil_nullable _ _ H1 eq_refl). apply MAltR. auto.
    + injection Hw as -> <-.
      assert (Matches (RSeq (deriv c r1) r2) (s1 ++ s2)) by (constructor; auto).
      destruct (nullable r1); [by apply MAltL|done].
  - apply MAltL. auto.
  - apply MAltR. auto.
  - discriminate.
  - destruct s1 as [|c1 s1]; cbn in Hw.
    + apply (IH2 s Hw).
    + injection Hw as -> <-. constructor; auto.
Qed.

Lemma deriv_Matches c r s : Matches (deriv c r) s <-> Matches r (c :: s).
Proof. split; [apply deriv_sound|intros H; by eapply deriv_complete]. Qed.

(** [matches_prefix] finds exactly the strings with a prefix in the
    language of the regex. *)
Lemma matches_prefix_spec r s :
  matches_prefix r s = true <-> exists s1 s2, s = s1 ++ s2 /\ Matches r s1.
Proof.
  revert r. induction s as [|c s IH]; intros r; cbn.
  - rewrite orb_false_r, nullable_Matches. split.
    + intros H. by exists [], [].
    + intros (s1 & s2 & Hs & H). symmetry in Hs.
      apply app_eq_nil in Hs as [-> _]. done.
  - rewrite orb_true_iff, IH, nullable_Matches. split.
    + intros [H|(s1 & s2 & -> & H)].
      * by exists [], (c :: s).
      * exists (c :: s1), s2. split; [done|]. by apply deriv_Matches.
    + intros (s1 & s2 & Hs & H). destruct s1 as [|c1 s1]; [by left|].
      injection Hs as <- ->. right. exists s1, s2. split; [done|].
      by apply deriv_Matches.
Qed.

(** [test] finds exactly the strings with a substring in the language. *)
Lemma test_spec r s :
  test r s = true <-> exists s0 s1 s2, s = s0 ++ s1 ++ s2 /\ Matches r s1.
Proof.
  induction s as [|c s IH]; cbn.
  - rewrite !orb_false_r, nullable_Matches. split.
    + intros H. by exists [], [], [].
    + intros (s0 & s1 & s2 & Hs & H). symmetry in Hs.
      apply app_eq_nil in Hs as [_ Hs]. apply app_eq_nil in Hs as [-> _]. done.
  - rewrite orb_true_iff, IH.
    change (nullable r || matches_prefix (deriv c r) s)
      with (matches_prefix r (c :: s)).
    rewrite matches_prefix_spec. split.
    + intros [(s1 & s2 & Hs & H)|(s0 & s1 & s2 & -> & H)].
      * by exists [], s1, s2.
      * by exists (c :: s0), s1, s2.
    + intros (s0 & s1 & s2 & Hs & H). destruct s0 as [|c0 s0].
      * left. by exists s1, s2.
      * injection Hs as <- ->. right. by exists s0, s1, s2.
Qed.

Lemma Matches_class p s : Matches (RClass p) s -> exists c, s = [c] /\ p c = true.
Proof. inversion 1; subst. eauto. Qed.

Lemma Matches_star_class p s :
  Matches (RStar (RClass p)) s -> Forall (fun c => p c = true) s.
Proof.
  intros H. remember (RStar (RClass p)) as r eqn:Hr.
  induction H as [| | | | |r|r s1 s2 H1 _ H2 IH2]; try discriminate.
  - constructor.
  - injection Hr as ->. apply Matches_class in H1 as (c & -> & Hc).
    constructor; [done|]. by apply IH2.
Qed.

(** [\S+] matches exactly the non-empty strings without white space. *)
Lemma Matches_plus_nonspace s :
  Matches (RPlus nonspace) s
  <-> s <> [] /\ Forall (fun c => is_space c = false) s.
Proof.
  split.
  - inversion 1 as [| |? ? s1 s2 H1 H2| | | |]; subst.
    apply Matches_class in H1 as (c & -> & Hc).
    apply Matches_star_class in H2. split; [done|].
    constructor; [by apply negb_true_iff|].
    eapply Forall_impl; [exact H2|]. intros x Hx. by apply negb_true_iff.
  - intros [Hne Hall]. destruct s as [|c s]; [done|].
    apply Forall_cons in Hall as [Hc Hs].
    change (c :: s) with ([c] ++ s). constructor.
    + constructor. by rewrite Hc.
    + clear Hne Hc c. induction s as [|c s IH]; [constructor|].
      apply Forall_cons in Hs as [Hc Hs].
      change (c :: s) with ([c] ++ s). constructor; [|by apply IH].
      constructor. by rewrite Hc.
Qed.

(** What [/\S+@\S+\.\S+/.test] accepts: a string that somewhere has a
    run of non-space characters, an at sign, another such run, a full
    stop and a third run. *)
Lemma test_emailPattern s :
  test emailPattern s = true
  <-> exists pre u v w post,
        s = pre ++ (u ++ [64] ++ v ++ [46] ++ w) ++ post
        /\ Forall (fun x => x <> [] /\ Forall (fun c => is_space c = false) x)
             [u; v; w].
Proof.
  rewrite test_spec. split.
  - intros (pre & m & post & -> & Hm). unfold emailPattern in Hm.
    inversion Hm as [| |? ? u m1 Hu H1| | | |]; subst.
    inversion H1 as [| |? ? a m2 Ha H2| | | |]; subst.
    inversion H2 as [| |? ? v m3 Hv H3| | | |]; subst.
    inversion H3 as [| |? ? d w Hd Hw| | | |]; subst.
    apply Matches_class in Ha as (ca & -> & Hca). apply N.eqb_eq in Hca as <-.
    apply Matches_class in Hd as (cd & -> & Hcd). apply N.eqb_eq in Hcd as <-.
    exists pre, u, v, w, post. split; [done|].
    repeat constructor; by apply Matches_plus_nonspace.
  - intros (pre & u & v & w & post & -> & Hall).
    apply Forall_cons in Hall as [Hu Hall].
    apply Forall_cons in Hall as [Hv Hall].
    apply Forall_cons in Hall as [Hw _].
    exists pre, (u ++ [64] ++ v ++ [46] ++ w), post. split; [done|].
    unfold emailPattern.
    constructor; [by apply Matches_plus_nonspace|].
    constructor; [by constructor|].
    constructor; [by apply Matches_plus_nonspace|].
    constructor; [by constructor|by apply Matches_plus_nonspace].
Qed.

(** An address the pattern accepts contains an at sign and a full stop. *)
Lemma test_emailPattern_at_dot s :
  test emailPattern s = true -> 64 ∈ s /\ 46 ∈ s.
Proof.
  intros (pre & u & v & w & post & -> & _)%test_emailPattern.
  split; set_solver.
Qed.

(** ** Runs *)

Lemma run_app evs1 evs2 b : run (evs1 ++ evs2) b = run evs2 (run evs1 b).
Proof. unfold run. apply foldl_app. Qed.

Lemma run_snoc evs ev b : run (evs ++ [ev]) b = step ev (run evs b).
Proof. by rewrite run_app. Qed.

Lemma reachable_run evs ls : reachable (run evs (mount ls)).
Proof.
  induction evs as [|ev evs IH] using rev_ind.
  - apply reachable_mount.
  - rewrite run_snoc. by apply reachable_step.
Qed.

Lemma reachable_run_from evs b : reachable b -> reachable (run evs b).
Proof.
  intros Hb. induction evs as [|ev evs IH] using rev_ind; [done|].
  rewrite run_snoc. by apply reachable_step.
Qed.

(** ** The views *)

Lemma shows_mode st v : shows st v = true <-> v = mode st.
Proof.
  destruct st as [tab fp fd errs ld rs [|c aerr]];
    destruct tab, fp, rs, v; vm_compute; split; congruence.
Qed.

(** C1 (as amended).  In every state of the panel exactly one of the four
    views is rendered: the reset-success view when [resetSuccess] is set,
    otherwise the forgot-password view when [showForgotPassword] is set,
    otherwise the login or the signup view according to [activeTab].  The
    two flags are not exclusive: [resetSuccess] is displayed with
    [showForgotPassword] still set. *)
Theorem exactly_one_view_rendered (b : Browser) :
  shows (panel b) (mode (panel b)) = true
  /\ (forall v, shows (panel b) v = true -> v = mode (panel b))
  /\ mode (panel b) =
       (if resetSuccess (panel b) then ResetSuccessView
        else if showForgotPassword (panel b) then ForgotPasswordView
        else match activeTab (panel b) with
             | signup => SignupView
             | login => LoginView
             end).
Proof.
  split; [by apply shows_mode|].
  split; [intros v; apply shows_mode|].
  unfold mode. by destruct (activeTab (panel b)).
Qed.

(** C1, counterexample.  After a password reset carried through, both
    [showForgotPassword] and [resetSuccess] are set: the flags are not
    mutually exclusive in every reachable state. *)
Lemma reset_success_keeps_forgot_flag :
  ~ (forall b, reachable b ->
       (showForgotPassword (panel b) && resetSuccess (panel b) = false)
       /\ exists v, shows (panel b) v = true
                    /\ forall v', shows (panel b) v' = true -> v' = v).
Proof.
  intros H.
  destruct (H (run resetCarriedThrough (mount ∅)) (reachable_run _ _)) as [Hx _].
  vm_compute in Hx. discriminate.
Qed.

(** ** Client-side validation *)

Lemma nonempty_map_size (m : gmap string jsstring) k v :
  m !! k = Some v -> bool_decide (size m = 0%nat) = false.
Proof.
  intros Hk. apply bool_decide_eq_false. intros Hs.
  apply map_size_empty_iff in Hs. subst m. by rewrite lookup_empty in Hk.
Qed.

Lemma newErrors_email st :
  let v := field (formData st) (emailKey st) in
  v = [] \/ test emailPattern v = false ->
  newErrors st !! emailKey st = Some (lit "Email is required")
  \/ newErrors st !! emailKey st = Some (lit "Email is invalid").
Proof.
  unfold emailKey, newErrors. destruct (showForgotPassword st); cbn zeta; intros Hv; cbn [negb].
  - destruct (truthy (trim (field (formData st) "resetEmail"))) eqn:Ht; cbn [negb].
    + destruct (test emailPattern (field (formData st) "resetEmail")) eqn:Hp; cbn [negb].
      * destruct Hv as [Hv|Hv]; [|done]. rewrite Hv in Ht. done.
      * right. by rewrite lookup_insert_eq.
    + left. by rewrite lookup_insert_eq.
  - set (e0 := if bool_decide (activeTab st = signup) then _ else _).
    assert (He0 : e0 !! "email" = None).
    { unfold e0. case_bool_decide; [|done].
      repeat (match goal with |- context [if ?c then _ else _] => destruct c end);
        by simplify_map_eq. }
    clearbody e0.
    destruct (truthy (trim (field (formData st) "email"))) eqn:Ht; cbn [negb].
    + destruct (test emailPattern (field (formData st) "email")) eqn:Hp; cbn [negb].
      * destruct Hv as [Hv|Hv]; [|done]. rewrite Hv in Ht. done.
      * right.
        repeat (match goal with |- context [if ?c then _ else _] => destruct c end);
          by simplify_map_eq.
    + left.
      repeat (match goal with |- context [if ?c then _ else _] => destruct c end);
        by simplify_map_eq.
Qed.

Lemma handleSubmit_invalid b :
  (validateForm (panel b)).2 = false ->
  handleSubmit b
  = withPanel (fun st => setErrors (fun _ => newErrors st) (setAuthError [] st)) b.
Proof.
  unfold handleSubmit, validateForm. cbn [fst snd]. intros Hv.
  change (newErrors (panel (withPanel (setAuthError []) b)))
    with (newErrors (panel b)).
  rewrite Hv. reflexivity.
Qed.

Lemma handleSubmit_valid b :
  (validateForm (panel b)).2 = true ->
  handleSubmit b
  = setInflight (inflight b ++ [submission (panel b)])
      (withPanel (fun st => setIsLoading true
         (setErrors (fun _ => newErrors st) (setAuthError [] st))) b).
Proof.
  unfold handleSubmit, validateForm. cbn [fst snd]. intros Hv.
  change (newErrors (panel (withPanel (setAuthError []) b)))
    with (newErrors (panel b)).
  rewrite Hv. reflexivity.
Qed.

Lemma step_cases ev b : step ev b = b \/ step ev b = handle ev b.
Proof. unfold step. destruct (enabled ev b); auto. Qed.

(** C2.  When the address the current mode validates ([resetEmail] in
    forgot-password mode, [email] otherwise) is empty or fails the email
    pattern, [validateForm] records an error under that field's key and
    returns false; the submission stops there: no request is sent and the
    loading flag is not raised. *)
Theorem malformed_email_blocks_submission (b : Browser) :
  let st := panel b in
  let v := field (formData st) (emailKey st) in
  v = [] \/ test emailPattern v = false ->
  truthy_opt (errors (validateForm st).1 !! emailKey st) = true
  /\ (validateForm st).2 = false
  /\ errors (panel (handleSubmit b)) = errors (validateForm st).1
  /\ inflight (handleSubmit b) = inflight b
  /\ isLoading (panel (handleSubmit b)) = isLoading (panel b)
  /\ inflight (step Submit b) = inflight b.
Proof.
  intros st v Hv. pose proof (newErrors_email st Hv) as Hk.
  assert (Hfalse : (validateForm st).2 = false).
  { cbn. destruct Hk as [Hk|Hk]; eapply nonempty_map_size; exact Hk. }
  assert (Hin : inflight (handleSubmit b) = inflight b).
  { by rewrite (handleSubmit_invalid b Hfalse). }
  split; [|split; [done|split; [|split; [done|split]]]].
  - cbn. by destruct Hk as [-> | ->].
  - by rewrite (handleSubmit_invalid b Hfalse).
  - by rewrite (handleSubmit_invalid b Hfalse).
  - destruct (step_cases Submit b) as [-> | ->]; done.
Qed.

(** The scenario of the design: forgot-password with ["bad-email"]. *)
Lemma malformed_email_blocks_submission_witness :
  let b := run [ClickForgotPassword; typed "resetEmail" "bad-email"] (mount ∅) in
  test emailPattern (field (formData (panel b)) (emailKey (panel b))) = false
  /\ errors (panel (handleSubmit b)) !! "resetEmail" = Some (lit "Email is invalid")
  /\ inflight (handleSubmit b) = [].
Proof.
  intros b.
  destruct (malformed_email_blocks_submission b) as (_ & _ & He & Hi & _).
  - right. vm_compute. reflexivity.
  - split; [vm_compute; reflexivity|]. split.
    + rewrite He. vm_compute. reflexivity.
    + rewrite Hi. vm_compute. reflexivity.
Defined.

Lemma newErrors_confirmPassword st :
  showForgotPassword st = false ->
  activeTab st = signup ->
  field (formData st) "password" <> field (formData st) "confirmPassword" ->
  newErrors st !! "confirmPassword" = Some (lit "Passwords do not match").
Proof.
  intros Hfp Htab Hne. unfold newErrors. rewrite Hfp, Htab. cbn zeta.
  rewrite bool_decide_eq_true_2 by done.
  rewrite (bool_decide_eq_false_2 _ Hne). cbn [negb].
  repeat (match goal with |- context [if ?c then _ else _] => destruct c end);
    by simplify_map_eq.
Qed.

(** C6.  In signup mode, whenever [password] and [confirmPassword] differ,
    [validateForm] records "Passwords do not match" under
    [confirmPassword] and returns false, and the submission sends no
    request. *)
Theorem mismatched_passwords_block_signup (b : Browser) :
  let st := panel b in
  showForgotPassword st = false ->
  activeTab st = signup ->
  field (formData st) "password" <> field (formData st) "confirmPassword" ->
  errors (validateForm st).1 !! "confirmPassword"
    = Some (lit "Passwords do not match")
  /\ (validateForm st).2 = false
  /\ errors (panel (handleSubmit b)) !! "confirmPassword"
       = Some (lit "Passwords do not match")
  /\ inflight (handleSubmit b) = inflight b
  /\ inflight (step Submit b) = inflight b.
Proof.
  intros st Hfp Htab Hne.
  pose proof (newErrors_confirmPassword st Hfp Htab Hne) as Hk.
  assert (Hfalse : (validateForm st).2 = false).
  { cbn. eapply nonempty_map_size; exact Hk. }
  assert (Hin : inflight (handleSubmit b) = inflight b).
  { by rewrite (handleSubmit_invalid b Hfalse). }
  split; [exact Hk|]. split; [exact Hfalse|]. split; [|split; [exact Hin|]].
  - rewrite (handleSubmit_invalid b Hfalse). exact Hk.
  - destruct (step_cases Submit b) as [-> | ->]; done.
Qed.

Lemma mismatched_passwords_block_signup_witness :
  let b := run [ClickRegisterTab; typed "name" "Ada";
                typed "email" "ada@example.com"; typed "password" "secret1";
                typed "confirmPassword" "secret2"] (mount ∅) in
  errors (panel (handleSubmit b)) !! "confirmPassword"
    = Some (lit "Passwords do not match")
  /\ inflight (step Submit b) = [].
Proof.
  intros b.
  destruct (mismatched_passwords_block_signup b) as (_ & _ & He & _ & Hi).
  - vm_compute. reflexivity.
  - vm_compute. reflexivity.
  - vm_compute. discriminate.
  - split; [exact He|]. rewrite Hi. vm_compute. reflexivity.
Defined.

(** ** Editing a field *)

Lemma newErrors_nonempty st : messages_nonempty (newErrors st).
Proof.
  unfold newErrors. cbn zeta.
  repeat (match goal with |- context [if ?c then _ else _] => destruct c end);
    repeat (apply map_Forall_insert_2; [reflexivity|]);
    apply map_Forall_empty.
Qed.

(** C8.  Editing the field [name] removes that field's entry from the
    error map and nothing else: the entries of all other fields stay as
    they were, the other form fields keep their values, and the edited
    field takes the typed value.  The error map is any map of recorded
    messages, which are non-empty strings (see [newErrors_nonempty]). *)
Theorem handleInputChange_clears_only_that_field
    (name : string) (value : jsstring) (st : AuthPanel) :
  messages_nonempty (errors st) ->
  let st' := handleInputChange name value st in
  errors st' = delete name (errors st)
  /\ errors st' !! name = None
  /\ (forall k, k <> name -> errors st' !! k = errors st !! k)
  /\ (forall k, k <> name -> formData st' !! k = formData st !! k)
  /\ formData st' !! name = Some value
  /\ (activeTab st', showForgotPassword st', isLoading st', resetSuccess st',
      authError st')
     = (activeTab st, showForgotPassword st, isLoading st, resetSuccess st,
        authError st).
Proof.
  intros Hne st'.
  assert (He : errors st' = delete name (errors st)).
  { unfold st', handleInputChange. cbn.
    destruct (errors st !! name) as [m|] eqn:Hm; cbn.
    - rewrite (Hne _ _ Hm). reflexivity.
    - symmetry. by apply delete_id. }
  assert (Hf : formData st' = <[name := value]> (formData st)).
  { unfold st', handleInputChange. cbn. by destruct (truthy_opt _). }
  split; [exact He|]. rewrite He, Hf.
  split; [apply lookup_delete_eq|].
  split; [intros k Hk; by apply lookup_delete_ne|].
  split; [intros k Hk; by apply lookup_insert_ne|].
  split; [apply lookup_insert_eq|].
  unfold st', handleInputChange. cbn. by destruct (truthy_opt _).
Qed.

Lemma handleInputChange_clears_only_that_field_witness :
  let st := (validateForm (panel (run [typed "email" "bad-email"] (mount ∅)))).1 in
  let st' := handleInputChange "email" (lit "bad-email2") st in
  errors st !! "email" = Some (lit "Email is invalid")
  /\ errors st' !! "email" = None
  /\ errors st' !! "password" = Some (lit "Password is required").
Proof.
  intros st st'.
  destruct (handleInputChange_clears_only_that_field "email" (lit "bad-email2") st)
    as (_ & Hn & Ho & _).
  - apply (bool_decide_unpack _). vm_compute. exact I.
  - split; [vm_compute; reflexivity|]. split; [exact Hn|].
    unfold st'. rewrite (Ho "password") by discriminate. vm_compute. reflexivity.
Defined.

(** ** Invariants of the reachable states *)

Lemma reachable_enabled_ind (P : Browser -> Prop) :
  (forall ls, P (mount ls)) ->
  (forall ev b, reachable b -> P b -> enabled ev b = true -> P (handle ev b)) ->
  forall b, reachable b -> P b.
Proof.
  intros Hm Hs b Hb. induction Hb as [ls|ev b Hb IH]; [apply Hm|].
  unfold step. destruct (enabled ev b) eqn:He; [by apply Hs|exact IH].
Qed.

Lemma rendered_submit_enabled st :
  rendered (SubmitButton false) st = true
  <-> resetSuccess st = false /\ isLoading st = false.
Proof.
  destruct st as [tab fp fd errs ld rs [|c aerr]];
    destruct tab, fp, rs, ld; vm_compute; intuition congruence.
Qed.

Lemma rendered_submit_disabled st :
  rendered (SubmitButton true) st = true
  <-> resetSuccess st = false /\ isLoading st = true.
Proof.
  destruct st as [tab fp fd errs ld rs [|c aerr]];
    destruct tab, fp, rs, ld; vm_compute; intuition congruence.
Qed.

Lemma inflight_resumeSubmit p o b : inflight (resumeSubmit p o b) = inflight b.
Proof.
  unfold resumeSubmit, afterAwait.
  destruct o as [r|e]; [|reflexivity].
  destruct (closure_showForgotPassword p); [reflexivity|].
  by destruct (data r).
Qed.

Lemma isLoading_handleInputChange name value st :
  isLoading (handleInputChange name value st) = isLoading st.
Proof. unfold handleInputChange. by destruct (truthy_opt _). Qed.

Lemma reachable_loading_tracks_inflight b :
  reachable b -> loading_tracks_inflight b.
Proof.
  revert b. apply reachable_enabled_ind.
  - intros ls. split; cbn; [lia|done].
  - intros ev b _ [Hlen Hld] Hen.
    apply andb_prop in Hen as [_ Hen].
    destruct ev as [| | | | |name value| |i o]; cbn [handle];
      try (split; [exact Hlen|exact Hld]).
    + split; [exact Hlen|]. cbn. rewrite isLoading_handleInputChange. exact Hld.
    + apply rendered_submit_enabled in Hen as [_ Hfalse].
      assert (Hnil : inflight b = []).
      { destruct (inflight b) as [|p l] eqn:Hl; [done|].
        rewrite Hld in Hfalse; done. }
      destruct ((validateForm (panel b)).2) eqn:Hv.
      * rewrite (handleSubmit_valid b Hv). unfold loading_tracks_inflight.
        cbn. rewrite Hnil. split; cbn; [lia|done].
      * rewrite (handleSubmit_invalid b Hv). unfold loading_tracks_inflight.
        cbn. rewrite Hnil. split; cbn; [lia|done].
    + apply bool_decide_eq_true in Hen as [p Hp]. rewrite Hp.
      unfold loading_tracks_inflight. rewrite inflight_resumeSubmit. cbn [inflight setInflight].
      assert (Hd : delete i (inflight b) = []).
      { destruct (inflight b) as [|q [|q' l]]; cbn in *; [done| |lia].
        destruct i as [|i]; [done|]. destruct i; discriminate Hp. }
      rewrite Hd. split; cbn; [lia|done].
Qed.

(** C9.  In every reachable state at most one request is in flight, and a
    request in flight means [isLoading] is set; while [isLoading] is set
    the submit button is rendered disabled (whenever the form is on the
    page), so a submit event changes nothing and sends nothing. *)
Theorem single_request_in_flight (b : Browser) :
  reachable b ->
  (length (inflight b) <= 1)%nat
  /\ (inflight b <> [] -> isLoading (panel b) = true)
  /\ (isLoading (panel b) = true ->
        rendered (SubmitButton false) (panel b) = false
        /\ rendered (SubmitButton true) (panel b)
             = negb (resetSuccess (panel b))
        /\ enabled Submit b = false
        /\ step Submit b = b).
Proof.
  intros Hb. destruct (reachable_loading_tracks_inflight b Hb) as [Hlen Hld].
  split; [exact Hlen|]. split; [exact Hld|]. intros Hl.
  assert (Hoff : rendered (SubmitButton false) (panel b) = false).
  { destruct (rendered (SubmitButton false) (panel b)) eqn:Hr; [|done].
    apply rendered_submit_enabled in Hr as [_ Hr]. congruence. }
  assert (Hen : enabled Submit b = false).
  { unfold enabled. rewrite Hoff. apply andb_false_r. }
  split; [exact Hoff|]. split; [|split; [exact Hen|]].
  - destruct (rendered (SubmitButton true) (panel b)) eqn:Hr.
    + apply rendered_submit_disabled in Hr as [-> _]. done.
    + destruct (resetSuccess (panel b)) eqn:Hrs; [done|].
      assert (rendered (SubmitButton true) (panel b) = true) as Hx
        by (by apply rendered_submit_disabled).
      congruence.
  - unfold step. by rewrite Hen.
Qed.

Lemma single_request_in_flight_witness :
  let b := run loginSubmitted (mount ∅) in
  length (inflight b) = 1%nat
  /\ isLoading (panel b) = true
  /\ step Submit b = b
  /\ inflight (run [Submit; Submit] b) = inflight b.
Proof.
  intros b.
  destruct (single_request_in_flight b) as (_ & _ & Hl).
  - apply reachable_run.
  - destruct Hl as (_ & _ & _ & Hs); [vm_compute; reflexivity|].
    split; [vm_compute; reflexivity|]. split; [vm_compute; reflexivity|].
    split; [exact Hs|]. cbn [run foldl]. by rewrite !Hs.
Defined.

(** ** The answer to a submission *)

Lemma rendered_ErrorBox st : rendered ErrorBox st = truthy (authError st).
Proof.
  destruct st as [tab fp fd errs ld rs [|c aerr]];
    destruct tab, fp, rs; vm_compute; reflexivity.
Qed.

Lemma or_else_truthy a m : truthy m = true -> truthy (or_else a m) = true.
Proof.
  intros Hm. unfold or_else. destruct a as [s|]; [|done].
  by destruct (truthy s) eqn:Hs.
Qed.

Lemma customMessage_truthy e :
  exists m, customMessage (responseInterceptor e) = Some m /\ truthy m = true.
Proof.
  unfold responseInterceptor.
  repeat case_bool_decide; [by eexists|by eexists|].
  destruct (response e) as [r|].
  - eexists. split; [reflexivity|]. by apply or_else_truthy.
  - destruct (request e); by eexists.
Qed.

(** The [catch] clause shows the message the interceptor attached. *)
Lemma catchMessage_intercepted e :
  Some (catchMessage (ThrownAxios (responseInterceptor e)))
  = customMessage (responseInterceptor e).
Proof.
  destruct (customMessage_truthy e) as (m & Hm & Ht).
  revert Hm. generalize (responseInterceptor e). intros e' Hm.
  unfold catchMessage, or_opt. rewrite Hm. cbn [truthy_opt]. rewrite Ht.
  cbn [or_else]. by rewrite Ht.
Qed.

Lemma settle_rejected b i p e :
  inflight b !! i = Some p ->
  handle (Settle i (Rejected e)) b
  = withPanel (fun st => setIsLoading false
      (setAuthError (catchMessage (ThrownAxios (responseInterceptor e))) st))
      (setInflight (delete i (inflight b)) b).
Proof. intros Hp. cbn [handle]. rewrite Hp. reflexivity. Qed.

Lemma settle_isLoading b i p o :
  inflight b !! i = Some p ->
  isLoading (panel (handle (Settle i o) b)) = false.
Proof. intros Hp. cbn [handle]. rewrite Hp. reflexivity. Qed.

(** C3.  When the awaited request is rejected, the message put in
    [authError] and displayed is chosen in this order: "Unable to connect
    to the server. ..." for [ERR_NETWORK]; else "Request timed out. ..." for
    [ECONNABORTED]; else, when the error has a response whose body carries
    a non-empty [msg], that [msg] as the server sent it; else one of the
    fixed fallback messages.  After the request settles, fulfilled or
    rejected, [isLoading] is false. *)
Theorem failure_message_priority
    (b : Browser) (i : nat) (p : Pending) (e : AxiosError) (o : Outcome) :
  inflight b !! i = Some p ->
  let b' := handle (Settle i (Rejected e)) b in
  (code e = Some (lit "ERR_NETWORK") ->
     authError (panel b')
     = lit "Unable to connect to the server. Please make sure the backend is running.")
  /\ (code e <> Some (lit "ERR_NETWORK") -> code e = Some (lit "ECONNABORTED") ->
        authError (panel b') = lit "Request timed out. Please try again.")
  /\ (code e <> Some (lit "ERR_NETWORK") -> code e <> Some (lit "ECONNABORTED") ->
        forall r d m, response e = Some r -> data r = Some d ->
                      msg d = Some m -> m <> [] ->
                      authError (panel b') = m)
  /\ (code e <> Some (lit "ERR_NETWORK") -> code e <> Some (lit "ECONNABORTED") ->
        (forall r d m, response e = Some r -> data r = Some d ->
                       msg d = Some m -> m = []) ->
        authError (panel b')
        ∈ [lit "Server error occurred.";
           lit "No response from server. Please check your network connection.";
           lit "An error occurred while processing your request."])
  /\ rendered ErrorBox (panel b') = true
  /\ isLoading (panel b') = false
  /\ isLoading (panel (handle (Settle i o) b)) = false.
Proof.
  intros Hp b'.
  assert (Ha : Some (authError (panel b')) = customMessage (responseInterceptor e)).
  { unfold b'. rewrite (settle_rejected b i p e Hp). cbn.
    apply catchMessage_intercepted. }
  assert (Hl : isLoading (panel b') = false).
  { unfold b'. by rewrite (settle_isLoading b i p _ Hp). }
  rewrite rendered_ErrorBox, Hl, (settle_isLoading b i p o Hp).
  clearbody b'. set (a := authError (panel b')) in *. clearbody a.
  change (lit "ERR_NETWORK") with ERR_NETWORK.
  change (lit "ECONNABORTED") with ECONNABORTED.
  split; [|split; [|split; [|split; [|split; [|done]]]]].
  - intros Hc. unfold responseInterceptor in Ha.
    rewrite bool_decide_eq_true_2 in Ha by done. by injection Ha.
  - intros Hn Hc. unfold responseInterceptor in Ha.
    rewrite (bool_decide_eq_false_2 _ Hn), bool_decide_eq_true_2 in Ha by done.
    by injection Ha.
  - intros Hn Hn' r d m Hr Hd Hm Hne. unfold responseInterceptor in Ha.
    rewrite (bool_decide_eq_false_2 _ Hn), (bool_decide_eq_false_2 _ Hn'), Hr in Ha.
    unfold response_msg in Ha. rewrite Hd in Ha. cbn in Ha. rewrite Hm in Ha.
    destruct m as [|c m]; [done|]. cbn in Ha. by injection Ha.
  - intros Hn Hn' Hnone. unfold responseInterceptor in Ha.
    rewrite (bool_decide_eq_false_2 _ Hn), (bool_decide_eq_false_2 _ Hn') in Ha.
    destruct (response e) as [r|] eqn:Hr.
    + unfold response_msg in Ha.
      destruct (data r) as [d|] eqn:Hd; cbn in Ha.
      * destruct (msg d) as [m|] eqn:Hm; cbn in Ha.
        -- rewrite (Hnone r d m eq_refl Hd Hm) in Ha. cbn in Ha.
           injection Ha as ->. apply list_elem_of_here.
        -- injection Ha as ->. apply list_elem_of_here.
      * injection Ha as ->. apply list_elem_of_here.
    + destruct (request e); cbn in Ha; injection Ha as ->.
      * apply list_elem_of_further, list_elem_of_here.
      * do 2 apply list_elem_of_further. apply list_elem_of_here.
  - destruct (customMessage_truthy e) as (m & Hm & Ht).
    rewrite Hm in Ha. by injection Ha as ->.
Qed.

(** The scenarios of the design: the connection is refused, and the
    server answers 400 with a message of its own. *)
Lemma failure_message_priority_witness :
  let b := run loginSubmitted (mount ∅) in
  let refused := handle (Settle 0 (Rejected connectionRefused)) b in
  let answered := handle (Settle 0 (Rejected invalidCredentials)) b in
  isLoading (panel b) = true
  /\ (authError (panel refused)
      = lit "Unable to connect to the server. Please make sure the backend is running."
      /\ isLoading (panel refused) = false)
  /\ (authError (panel answered) = lit "Invalid credentials"
      /\ isLoading (panel answered) = false).
Proof.
  intros b refused answered.
  split; [vm_compute; reflexivity|]. split.
  - destruct (failure_message_priority b 0
                (submission (panel (run (take 2 loginSubmitted) (mount ∅))))
                connectionRefused (Rejected connectionRefused))
      as (Hm & _ & _ & _ & _ & Hl & _).
    + vm_compute. reflexivity.
    + split; [apply Hm; reflexivity|exact Hl].
  - destruct (failure_message_priority b 0
                (submission (panel (run (take 2 loginSubmitted) (mount ∅))))
                invalidCredentials (Rejected invalidCredentials))
      as (_ & _ & Hm & _ & _ & Hl & _).
    + vm_compute. reflexivity.
    + split; [|exact Hl].
      apply (Hm ltac:(vm_compute; discriminate) ltac:(vm_compute; discriminate)
               {| status := 400;
                  data := Some {| token := None;
                                  msg := Some (lit "Invalid credentials") |} |}
               {| token := None; msg := Some (lit "Invalid credentials") |}
               (lit "Invalid credentials"));
        [reflexivity|reflexivity|reflexivity|vm_compute; discriminate].
Defined.

(** C4.  When the server answers a login submission with an error, a
    non-empty message is put in [authError] and displayed (the server's
    own [msg] when it sent one), and local storage is left exactly as it
    was: no token is written and a token stored before stays. *)
Theorem rejected_login_stores_no_token
    (b : Browser) (i : nat) (p : Pending) (e : AxiosError) (r : Response) :
  inflight b !! i = Some p ->
  closure_showForgotPassword p = false ->
  endpoint p = lit "/auth/login" ->
  response e = Some r ->
  let b' := handle (Settle i (Rejected e)) b in
  localStorage b' = localStorage b
  /\ localStorage b' !! "token" = localStorage b !! "token"
  /\ href b' = href b
  /\ truthy (authError (panel b')) = true
  /\ rendered ErrorBox (panel b') = true
  /\ (code e <> Some ERR_NETWORK -> code e <> Some ECONNABORTED ->
        authError (panel b') = or_else (response_msg r) msgServerError).
Proof.
  intros Hp _ _ Hr b'.
  assert (Ha : Some (authError (panel b')) = customMessage (responseInterceptor e)).
  { unfold b'. rewrite (settle_rejected b i p e Hp). cbn.
    apply catchMessage_intercepted. }
  assert (Ht : truthy (authError (panel b')) = true).
  { destruct (customMessage_truthy e) as (m & Hm & Ht).
    rewrite Hm in Ha. by injection Ha as ->. }
  assert (Hs : localStorage b' = localStorage b /\ href b' = href b).
  { unfold b'. by rewrite (settle_rejected b i p e Hp). }
  destruct Hs as [Hs Hh]. rewrite rendered_ErrorBox, Hs, Hh.
  clearbody b'. set (a := authError (panel b')) in *. clearbody a.
  split; [reflexivity|]. split; [reflexivity|]. split; [reflexivity|].
  split; [exact Ht|]. split; [exact Ht|].
  intros Hn Hn'. unfold responseInterceptor in Ha.
  rewrite (bool_decide_eq_false_2 _ Hn), (bool_decide_eq_false_2 _ Hn'), Hr in Ha.
  by injection Ha.
Qed.

Lemma rejected_login_stores_no_token_witness :
  let b := run loginSubmitted (mount (<["token" := lit "old"]> ∅)) in
  let b' := handle (Settle 0 (Rejected invalidCredentials)) b in
  authError (panel b') = lit "Invalid credentials"
  /\ localStorage b' !! "token" = Some (lit "old").
Proof.
  intros b b'.
  destruct (rejected_login_stores_no_token b 0
              (submission (panel (run (take 2 loginSubmitted) (mount ∅))))
              invalidCredentials
              {| status := 400;
                 data := Some {| token := None;
                                 msg := Some (lit "Invalid credentials") |} |})
    as (_ & Hs & _ & _ & _ & Hm).
  - vm_compute. reflexivity.
  - vm_compute. reflexivity.
  - vm_compute. reflexivity.
  - vm_compute. reflexivity.
  - split.
    + unfold b'. rewrite Hm; [vm_compute; reflexivity| |]; vm_compute; discriminate.
    + unfold b'. rewrite Hs. vm_compute. reflexivity.
Defined.

Lemma rendered_EmailSentPanel st : rendered EmailSentPanel st = resetSuccess st.
Proof.
  destruct st as [tab fp fd errs ld rs [|c aerr]];
    destruct tab, fp, rs; vm_compute; reflexivity.
Qed.

Lemma settle_fulfilled b i p r :
  inflight b !! i = Some p ->
  handle (Settle i (Fulfilled r)) b
  = resumeSubmit p (Fulfilled r) (setInflight (delete i (inflight b)) b).
Proof. intros Hp. cbn [handle]. by rewrite Hp. Qed.

Lemma submission_closure st :
  closure_showForgotPassword (submission st) = showForgotPassword st
  /\ closure_activeTab (submission st) = activeTab st.
Proof. unfold submission. by destruct (showForgotPassword st). Qed.

(** C5.  The request a submission sends remembers the mode it was sent
    in.  When it is fulfilled: sent from the login or the signup form, the
    token of the response body is stored in local storage under the key
    [token] (no other key changes) and the location is set to
    [/dashboard]; sent from the forgot-password form, [resetSuccess] is set
    and the reset-success view is shown, local storage is untouched and
    the page is not left. *)
Theorem fulfilled_response_effects
    (b : Browser) (i : nat) (p : Pending) (r : Response) (d : ResponseData) :
  inflight b !! i = Some p ->
  data r = Some d ->
  let b' := handle (Settle i (Fulfilled r)) b in
  (forall st, closure_showForgotPassword (submission st) = showForgotPassword st)
  /\ (closure_showForgotPassword p = false ->
        localStorage b' = <["token" := ToString (token d)]> (localStorage b)
        /\ (forall t, token d = Some t -> localStorage b' !! "token" = Some t)
        /\ (forall k, k <> "token" -> localStorage b' !! k = localStorage b !! k)
        /\ href b' = Some (lit "/dashboard"))
  /\ (closure_showForgotPassword p = true ->
        resetSuccess (panel b') = true
        /\ shows (panel b') ResetSuccessView = true
        /\ localStorage b' = localStorage b
        /\ href b' = href b).
Proof.
  intros Hp Hd b'. unfold b'. rewrite (settle_fulfilled b i p r Hp).
  unfold resumeSubmit, afterAwait.
  split; [intros st; apply submission_closure|]. split; intros Hc; rewrite Hc.
  - rewrite Hd. cbn. split; [reflexivity|]. split; [|split; [|reflexivity]].
    + intros t ->. apply lookup_insert_eq.
    + intros k Hk. by apply lookup_insert_ne.
  - cbn. split; [reflexivity|]. split; [|done].
    by rewrite rendered_EmailSentPanel.
Qed.

Lemma fulfilled_response_effects_witness :
  let b := run loginSubmitted (mount ∅) in
  let b' := handle (Settle 0 (Fulfilled (tokenResponse (lit "eyJhbGciOi")))) b in
  let c := run (take 3 resetCarriedThrough) (mount ∅) in
  let c' := handle (Settle 0 (Fulfilled emptyResponse)) c in
  (localStorage b' !! "token" = Some (lit "eyJhbGciOi")
   /\ href b' = Some (lit "/dashboard"))
  /\ (shows (panel c') ResetSuccessView = true /\ localStorage c' = ∅).
Proof.
  intros b b' c c'. split.
  - destruct (fulfilled_response_effects b 0
                (submission (panel (run (take 2 loginSubmitted) (mount ∅))))
                (tokenResponse (lit "eyJhbGciOi"))
                {| token := Some (lit "eyJhbGciOi"); msg := None |})
      as (_ & Hl & _).
    + vm_compute. reflexivity.
    + vm_compute. reflexivity.
    + destruct Hl as (_ & Ht & _ & Hh); [vm_compute; reflexivity|].
      split; [by apply Ht|exact Hh].
  - destruct (fulfilled_response_effects c 0
                (submission (panel (run (take 2 resetCarriedThrough) (mount ∅))))
                emptyResponse {| token := None; msg := None |})
      as (_ & _ & Hf).
    + vm_compute. reflexivity.
    + vm_compute. reflexivity.
    + destruct Hf as (_ & Hv & Hs & _); [vm_compute; reflexivity|].
      split; [exact Hv|]. unfold c'. rewrite Hs. vm_compute. reflexivity.
Defined.

(** ** The dashboard *)

(** C10.  With any two non-empty tokens under the key [token], the
    dashboard renders the same thing: the placeholder name "Demo User" and
    address "user@example.com" (and the time of mounting), and does not
    redirect.  Nothing of the token is read beyond its being there; with
    no token the dashboard redirects to [/]. *)
Theorem dashboard_ignores_token_content
    (now : jsstring) (ls1 ls2 : gmap string jsstring) (t1 t2 : jsstring) :
  ls1 !! "token" = Some t1 -> t1 <> [] ->
  ls2 !! "token" = Some t2 -> t2 <> [] ->
  Dashboard.mounted now ls1 = Dashboard.mounted now ls2
  /\ Dashboard.mounted now ls1
     = (Dashboard.Profile (Some (lit "Demo User"))
          (Some (lit "user@example.com")) (Some now), None)
  /\ (forall ls, ls !! "token" = None ->
        Dashboard.mounted now ls = (Dashboard.Spinner, Some (lit "/"))
        /\ Dashboard.user (Dashboard.effect now ls Dashboard.initial).1 = None).
Proof.
  intros H1 Hn1 H2 Hn2.
  assert (Hm : forall ls t, ls !! "token" = Some t -> t <> [] ->
            Dashboard.mounted now ls
            = (Dashboard.Profile (Some (lit "Demo User"))
                 (Some (lit "user@example.com")) (Some now), None)).
  { intros ls t Hl Ht. unfold Dashboard.mounted, Dashboard.effect.
    rewrite Hl. destruct t; [done|]. reflexivity. }
  split; [by rewrite (Hm _ _ H1 Hn1), (Hm _ _ H2 Hn2)|].
  split; [by apply (Hm _ _ H1 Hn1)|].
  intros ls Hl. unfold Dashboard.mounted, Dashboard.effect. by rewrite Hl.
Qed.

Lemma dashboard_ignores_token_content_witness :
  Dashboard.mounted (lit "2023-09-01T10:00:00.000Z") (<["token" := lit "eyJhbGciOi"]> ∅)
  = Dashboard.mounted (lit "2023-09-01T10:00:00.000Z") (<["token" := lit "x"]> ∅)
  /\ Dashboard.mounted (lit "2023-09-01T10:00:00.000Z") ∅
     = (Dashboard.Spinner, Some (lit "/")).
Proof.
  destruct (dashboard_ignores_token_content (lit "2023-09-01T10:00:00.000Z")
              (<["token" := lit "eyJhbGciOi"]> ∅) (<["token" := lit "x"]> ∅)
              (lit "eyJhbGciOi") (lit "x"))
    as (He & _ & Hnone).
  - vm_compute. reflexivity.
  - vm_compute. discriminate.
  - vm_compute. reflexivity.
  - vm_compute. discriminate.
  - split; [exact He|]. apply (Hnone ∅). reflexivity.
Defined.

(** A stored token that is the empty string is falsy and counts as no
    token. *)
Lemma dashboard_empty_token_redirects now ls :
  ls !! "token" = Some [] ->
  Dashboard.mounted now ls = (Dashboard.Spinner, Some (lit "/")).
Proof. intros Hl. unfold Dashboard.mounted, Dashboard.effect. by rewrite Hl. Qed.

(** Logging out removes the token, after which the dashboard redirects. *)
Lemma dashboard_logout now ls :
  (Dashboard.handleLogout ls).1 !! "token" = None
  /\ Dashboard.mounted now (Dashboard.handleLogout ls).1
     = (Dashboard.Spinner, Some (lit "/")).
Proof.
  assert (H : (Dashboard.handleLogout ls).1 !! "token" = None)
    by apply lookup_delete_eq.
  split; [exact H|]. unfold Dashboard.mounted, Dashboard.effect. by rewrite H.
Qed.

(** ** The form state machine *)

Lemma flags_mode st st' : flags st' = flags st -> mode st' = mode st.
Proof. unfold flags, mode. intros [= -> -> ->]. reflexivity. Qed.

Lemma flags_designed st st' : flags st' = flags st -> designed st -> designed st'.
Proof. unfold flags, designed. intros [= -> -> ->]. done. Qed.

Lemma flags_handleInputChange name value st :
  flags (handleInputChange name value st) = flags st.
Proof. unfold handleInputChange. by destruct (truthy_opt _). Qed.

Lemma flags_handleSubmit b : flags (panel (handleSubmit b)) = flags (panel b).
Proof.
  destruct ((validateForm (panel b)).2) eqn:Hv.
  - by rewrite (handleSubmit_valid b Hv).
  - by rewrite (handleSubmit_invalid b Hv).
Qed.

Lemma flags_resumeSubmit p o b :
  flags (panel (resumeSubmit p o b))
  = match o with
    | Fulfilled _ =>
        if closure_showForgotPassword p
        then (activeTab (panel b), showForgotPassword (panel b), true)
        else flags (panel b)
    | Rejected _ => flags (panel b)
    end.
Proof.
  unfold resumeSubmit, afterAwait. destruct o as [r|e]; [|reflexivity].
  destruct (closure_showForgotPassword p); [reflexivity|].
  by destruct (data r).
Qed.

Lemma enabled_clicks b :
  (enabled ClickSignInTab b = true -> showForgotPassword (panel b) = false)
  /\ (enabled ClickRegisterTab b = true -> showForgotPassword (panel b) = false)
  /\ (enabled ClickSwitch b = true ->
        showForgotPassword (panel b) = false /\ resetSuccess (panel b) = false)
  /\ (enabled ClickForgotPassword b = true ->
        showForgotPassword (panel b) = false /\ resetSuccess (panel b) = false
        /\ activeTab (panel b) = login)
  /\ (enabled ClickBackToLogin b = true ->
        showForgotPassword (panel b) = true \/ resetSuccess (panel b) = true).
Proof.
  destruct b as [[tab fp fd errs ld rs [|c aerr]] ls [h|] infl];
    destruct tab, fp, rs; vm_compute; intuition congruence.
Qed.

(** Unless a reset request is answered late, a step from a designed state
    keeps the view or takes one of the listed transitions, and ends in a
    designed state. *)
Lemma listed_unless_late ev b :
  designed (panel b) ->
  late ev b = false ->
  designed (panel (step ev b))
  /\ (mode (panel (step ev b)) = mode (panel b)
      \/ listed (mode (panel b)) (mode (panel (step ev b))) = true).
Proof.
  intros Hd Hl. unfold step. destruct (enabled ev b) eqn:Hen; [|by auto].
  destruct (enabled_clicks b) as (H1 & H2 & H3 & H4 & H5).
  destruct ev as [| | | | |name value| |i o]; cbn [handle].
  - specialize (H1 Hen). clear H2 H3 H4 H5 Hen Hl.
    destruct b as [[tab fp fd errs ld rs aerr] ls h infl]; cbn in *; subst.
    destruct Hd as [Hd _]. destruct rs; [by specialize (Hd eq_refl)|].
    split; [by split|]. destruct tab; vm_compute; auto.
  - specialize (H2 Hen). clear H1 H3 H4 H5 Hen Hl.
    destruct b as [[tab fp fd errs ld rs aerr] ls h infl]; cbn in *; subst.
    destruct Hd as [Hd _]. destruct rs; [by specialize (Hd eq_refl)|].
    split; [by split|]. destruct tab; vm_compute; auto.
  - destruct (H3 Hen) as [Hfp Hrs]. clear H1 H2 H3 H4 H5 Hen Hl.
    destruct b as [[tab fp fd errs ld rs aerr] ls h infl]; cbn in *; subst.
    split; [by split|]. destruct tab; vm_compute; auto.
  - destruct (H4 Hen) as (Hfp & Hrs & Htab). clear H1 H2 H3 H4 H5 Hen Hl.
    destruct b as [[tab fp fd errs ld rs aerr] ls h infl]; cbn in *; subst.
    split; [by split|]. vm_compute; auto.
  - specialize (H5 Hen). clear H1 H2 H3 H4 Hen Hl.
    destruct b as [[tab fp fd errs ld rs aerr] ls h infl]; cbn in *.
    destruct Hd as [Hd1 Hd2]. cbn in Hd1, Hd2.
    assert (fp = true) as -> by (destruct H5; auto).
    specialize (Hd2 eq_refl). subst tab.
    split; [by split|]. destruct rs; vm_compute; auto.
  - cbn [panel withPanel]. split.
    + eapply flags_designed; [apply flags_handleInputChange|done].
    + left. apply flags_mode, flags_handleInputChange.
  - split.
    + eapply flags_designed; [apply flags_handleSubmit|done].
    + left. apply flags_mode, flags_handleSubmit.
  - apply andb_prop in Hen as [_ Hen].
    apply bool_decide_eq_true in Hen as [p Hp]. rewrite Hp. cbn [late] in Hl.
    rewrite Hp in Hl.
    pose proof (flags_resumeSubmit p o (setInflight (delete i (inflight b)) b)) as Hf.
    cbn [panel setInflight] in Hf.
    set (st' := panel (resumeSubmit p o _)) in *. clearbody st'.
    destruct o as [r|e].
    + destruct (closure_showForgotPassword p).
      * cbn in Hl. apply negb_false_iff in Hl.
        unfold flags in Hf. injection Hf as Hf1 Hf2 Hf3.
        unfold designed, mode in *. rewrite Hf1, Hf2, Hf3, Hl.
        split; [split; [done|tauto]|].
        destruct (resetSuccess (panel b)); auto.
      * split; [by eapply flags_designed|]. left. by apply flags_mode.
    + split; [by eapply flags_designed|]. left. by apply flags_mode.
Qed.

(** The panel starts in the login view, a designed state. *)
Lemma mount_login ls :
  mode (panel (mount ls)) = LoginView /\ designed (panel (mount ls)).
Proof. split; [reflexivity|]. split; discriminate. Qed.

(** As long as every reset request is answered while the reset form is
    still open, the panel is in one of the four designed states. *)
Lemma on_time_designed b : reachable_on_time b -> designed (panel b).
Proof.
  induction 1 as [ls|ev b _ IH Hl]; [apply mount_login|].
  by apply listed_unless_late.
Qed.

Lemma on_time_reachable b : reachable_on_time b -> reachable b.
Proof. induction 1; by constructor. Qed.

(** Every listed transition is taken by some event in a reachable state. *)
Lemma listed_transitions_realised m m' :
  listed m m' = true ->
  exists b ev, reachable b /\ mode (panel b) = m /\ mode (panel (step ev b)) = m'.
Proof.
  destruct m, m'; try discriminate; intros _.
  - exists (mount ∅), ClickRegisterTab. split; [apply reachable_mount|done].
  - exists (mount ∅), ClickForgotPassword. split; [apply reachable_mount|done].
  - exists (run [ClickRegisterTab] (mount ∅)), ClickSwitch.
    split; [apply reachable_run|done].
  - exists (run [ClickForgotPassword] (mount ∅)), ClickBackToLogin.
    split; [apply reachable_run|done].
  - exists (run (take 3 resetCarriedThrough) (mount ∅)),
      (Settle 0 (Fulfilled emptyResponse)).
    split; [apply reachable_run|]. split; vm_compute; reflexivity.
  - exists (run resetCarriedThrough (mount ∅)), ClickBackToLogin.
    split; [apply reachable_run|]. split; vm_compute; reflexivity.
Qed.

(** C7.  The panel at a run the listed transitions do not cover: the
    reset form is submitted, "Back to Login" is clicked while the request
    is in flight (the link stays rendered and enabled), and then the
    service answers 200.  The continuation of [handleSubmit] sets
    [resetSuccess] although the panel is back in the login view: the view
    goes from login to reset-success, and from there, after the Register
    tab, "Back to Login" leads to signup. *)
Theorem late_reset_answer_leaves_listed_transitions :
  let b := run resetLeftInFlight (mount ∅) in
  let b' := step (Settle 0 (Fulfilled emptyResponse)) b in
  let b'' := step ClickRegisterTab b' in
  let b''' := step ClickBackToLogin b'' in
  reachable b'''
  /\ enabled (Settle 0 (Fulfilled emptyResponse)) b = true
  /\ (mode (panel b) = LoginView /\ mode (panel b') = ResetSuccessView
      /\ listed LoginView ResetSuccessView = false)
  /\ (showForgotPassword (panel b') = false /\ resetSuccess (panel b') = true
      /\ render (panel b') = [TabButtons; EmailSentPanel])
  /\ (mode (panel b'') = ResetSuccessView /\ mode (panel b''') = SignupView
      /\ listed ResetSuccessView SignupView = false).
Proof.
  intros b b' b'' b'''. split.
  - unfold b''', b'', b', b. do 3 apply reachable_step. apply reachable_run.
  - vm_compute. repeat split; reflexivity.
Qed.

(** ** What the form holds in every reachable state *)

Lemma panel_resumeSubmit_cells p o b :
  formData (panel (resumeSubmit p o b)) = formData (panel b)
  /\ errors (panel (resumeSubmit p o b)) = errors (panel b).
Proof.
  unfold resumeSubmit, afterAwait. destruct o as [r|e]; [|done].
  destruct (closure_showForgotPassword p); [done|]. by destruct (data r).
Qed.

Lemma formData_handle ev b :
  formData (panel (handle ev b))
  = match ev with
    | Change name value => <[name := value]> (formData (panel b))
    | _ => formData (panel b)
    end.
Proof.
  destruct ev as [| | | | |name value| |i o]; cbn [handle]; try reflexivity.
  - cbn. unfold handleInputChange. by destruct (truthy_opt _).
  - destruct ((validateForm (panel b)).2) eqn:Hv.
    + by rewrite (handleSubmit_valid b Hv).
    + by rewrite (handleSubmit_invalid b Hv).
  - destruct (inflight b !! i); [|done].
    by rewrite (proj1 (panel_resumeSubmit_cells _ _ _)).
Qed.

(** The five fields of the form are defined in every reachable state. *)
Lemma reachable_formData_keys b :
  reachable b ->
  forall k, k ∈ ["name"; "email"; "password"; "confirmPassword"; "resetEmail"] ->
            is_Some (formData (panel b) !! k).
Proof.
  intros Hb. pattern b. revert b Hb. apply reachable_enabled_ind.
  - intros ls k Hk. cbn. unfold initialFormData.
    repeat (apply elem_of_cons in Hk as [->|Hk]; [by simplify_map_eq|]).
    by apply elem_of_nil in Hk.
  - intros ev b _ IH _ k Hk. rewrite formData_handle.
    destruct ev; auto. rewrite lookup_insert_is_Some.
    destruct (decide (name = k)); auto.
Qed.

Lemma errors_handle ev b :
  errors (panel (handle ev b)) = errors (panel b)
  \/ errors (panel (handle ev b)) = ∅
  \/ errors (panel (handle ev b)) = newErrors (panel b)
  \/ exists name, errors (panel (handle ev b)) = delete name (errors (panel b)).
Proof.
  destruct ev as [| | | | |name value| |i o]; cbn [handle]; auto.
  - cbn. unfold handleInputChange. cbn.
    destruct (truthy_opt _); cbn; eauto.
  - right. right. left. destruct ((validateForm (panel b)).2) eqn:Hv.
    + by rewrite (handleSubmit_valid b Hv).
    + by rewrite (handleSubmit_invalid b Hv).
  - left. destruct (inflight b !! i); [|done].
    by rewrite (proj2 (panel_resumeSubmit_cells _ _ _)).
Qed.

(** The error map of a reachable state holds non-empty messages only. *)
Lemma reachable_messages_nonempty b :
  reachable b -> messages_nonempty (errors (panel b)).
Proof.
  revert b. apply reachable_enabled_ind.
  - intros ls. apply map_Forall_empty.
  - intros ev b _ IH _.
    destruct (errors_handle ev b) as [-> | [-> | [-> | [name ->]]]].
    + exact IH.
    + apply map_Forall_empty.
    + apply newErrors_nonempty.
    + by apply map_Forall_delete.
Qed.

(** In a reachable state, editing a field removes exactly its entry. *)
Corollary reachable_edit_clears_entry b name value :
  reachable b ->
  errors (handleInputChange name value (panel b)) = delete name (errors (panel b)).
Proof.
  intros Hb.
  pose proof (reachable_messages_nonempty b Hb) as Hne.
  unfold handleInputChange. cbn.
  destruct (errors (panel b) !! name) as [m|] eqn:Hm; cbn.
  - by rewrite (Hne _ _ Hm).
  - symmetry. by apply delete_id.
Qed.

(** A field of white space only counts as missing. *)
Lemma trimStart_spaces s : Forall (fun c => is_space c = true) s -> trimStart s = [].
Proof. induction 1 as [|c s Hc _ IH]; cbn; [done|]. by rewrite Hc. Qed.

Lemma trim_spaces s : Forall (fun c => is_space c = true) s -> truthy (trim s) = false.
Proof. intros H. unfold trim. by rewrite (trimStart_spaces s H). Qed.

(** * Further properties of the code *)

(** ** Validation, field by field *)

Lemma newErrors_lookup st k : newErrors st !! k = fieldError st k.
Proof.
  unfold newErrors, fieldError, emailError, passwordError. cbn zeta.
  destruct (showForgotPassword st); cbn [negb andb];
    repeat (match goal with
            | |- context [if negb ?c then _ else _] => destruct c; cbn [negb andb]
            | |- context [if bool_decide (activeTab st = signup) then _ else _] =>
                destruct (bool_decide (activeTab st = signup)); cbn [negb andb]
            | |- context [if (_ <? _) then _ else _] => destruct (_ <? _)
            end);
    repeat case_bool_decide; subst; by simplify_map_eq.
Qed.

Lemma trimStart_nil_iff s :
  trimStart s = [] <-> Forall (fun c => is_space c = true) s.
Proof.
  split; [|apply trimStart_spaces].
  induction s as [|c s IH]; cbn; [constructor|].
  destruct (is_space c) eqn:Hc; [|discriminate].
  intros H. constructor; auto.
Qed.

Lemma trimStart_suffix s : exists pre, s = pre ++ trimStart s.
Proof.
  induction s as [|c s [pre IH]]; cbn; [by exists []|].
  destruct (is_space c); [|by exists []].
  exists (c :: pre). cbn. by f_equal.
Qed.

Lemma trimStart_head s c t : trimStart s = c :: t -> is_space c = false.
Proof.
  induction s as [|d s IH]; cbn; [discriminate|].
  destruct (is_space d) eqn:Hd; [exact IH|]. by intros [= <- _].
Qed.

(** [s.trim()] is empty exactly when [s] consists of white space. *)
Lemma trim_blank_iff s :
  truthy (trim s) = false <-> Forall (fun c => is_space c = true) s.
Proof.
  split; [|apply trim_spaces].
  unfold trim. intros Ht.
  assert (Hnil : trimStart (rev (trimStart s)) = []).
  { destruct (trimStart (rev (trimStart s))) as [|c t] eqn:He; [done|].
    cbn in Ht. destruct (rev t); discriminate Ht. }
  apply trimStart_nil_iff in Hnil. apply Forall_rev in Hnil.
  rewrite rev_involutive in Hnil.
  destruct (trimStart s) as [|c t] eqn:Hs; [by apply trimStart_nil_iff|].
  apply trimStart_head in Hs. apply Forall_cons in Hnil as [Hc _]. congruence.
Qed.

(** A string the pattern accepts has a character that is not white space. *)
Lemma test_emailPattern_not_blank s :
  test emailPattern s = true -> truthy (trim s) = true.
Proof.
  intros (pre & u & v & w & post & -> & Hall)%test_emailPattern.
  destruct (truthy (trim _)) eqn:Ht; [done|].
  apply trim_blank_iff in Ht.
  apply Forall_cons in Hall as [[Hu Hns] _].
  destruct u as [|c u]; [done|]. apply Forall_cons in Hns as [Hc _].
  rewrite Forall_app in Ht. destruct Ht as [_ Ht].
  rewrite Forall_app in Ht. destruct Ht as [Ht _].
  cbn in Ht. apply Forall_cons in Ht as [Ht _]. congruence.
Qed.

Lemma emailError_None v :
  emailError v = None <-> truthy (trim v) = true /\ test emailPattern v = true.
Proof.
  unfold emailError.
  destruct (truthy (trim v)), (test emailPattern v); cbn; intuition congruence.
Qed.

Lemma passwordError_None v : passwordError v = None <-> (6 <= length v)%nat.
Proof.
  unfold passwordError. destruct v as [|c v]; cbn [truthy negb]; [cbn; split; [done|lia]|].
  destruct (N.of_nat (length (c :: v)) <? 6) eqn:Hl.
  - apply N.ltb_lt in Hl. split; [done|lia].
  - apply N.ltb_ge in Hl. split; [lia|done].
Qed.

Lemma validateForm_true_empty st :
  (validateForm st).2 = true <-> newErrors st = ∅.
Proof.
  cbn. rewrite bool_decide_eq_true. apply map_size_empty_iff.
Qed.

Lemma fieldError_resetEmail st :
  fieldError st "resetEmail"
  = if showForgotPassword st
    then emailError (field (formData st) "resetEmail") else None.
Proof. reflexivity. Qed.

Lemma fieldError_email st :
  fieldError st "email"
  = if showForgotPassword st
    then None else emailError (field (formData st) "email").
Proof. reflexivity. Qed.

Lemma fieldError_password st :
  fieldError st "password"
  = if showForgotPassword st
    then None else passwordError (field (formData st) "password").
Proof. reflexivity. Qed.

Lemma fieldError_name st :
  fieldError st "name"
  = if negb (showForgotPassword st) && bool_decide (activeTab st = signup)
       && negb (truthy (trim (field (formData st) "name")))
    then Some (lit "Name is required") else None.
Proof. reflexivity. Qed.

Lemma fieldError_confirmPassword st :
  fieldError st "confirmPassword"
  = if negb (showForgotPassword st) && bool_decide (activeTab st = signup)
       && negb (bool_decide (field (formData st) "password"
                             = field (formData st) "confirmPassword"))
    then Some (lit "Passwords do not match") else None.
Proof. reflexivity. Qed.

(** X1.  [validateForm] accepts the form exactly in these cases.  In
    forgot-password mode: [resetEmail] is not blank and matches the
    pattern.  Otherwise: [email] is not blank and matches the pattern, the
    password has at least six code units, and in signup mode the name is
    not blank and [confirmPassword] equals [password]. *)
Theorem validateForm_accepts_iff (st : AuthPanel) :
  let fd := formData st in
  (validateForm st).2 = true <->
  if showForgotPassword st then
    truthy (trim (field fd "resetEmail")) = true
    /\ test emailPattern (field fd "resetEmail") = true
  else
    (truthy (trim (field fd "email")) = true
     /\ test emailPattern (field fd "email") = true)
    /\ (6 <= length (field fd "password"))%nat
    /\ (activeTab st = signup ->
          truthy (trim (field fd "name")) = true
          /\ field fd "password" = field fd "confirmPassword").
Proof.
  intros fd. rewrite validateForm_true_empty. split.
  - intros He.
    assert (Hk : forall k, fieldError st k = None).
    { intros k. rewrite <- newErrors_lookup, He. apply lookup_empty. }
    pose proof (Hk "resetEmail") as H1. pose proof (Hk "email") as H2.
    pose proof (Hk "password") as H3. pose proof (Hk "name") as H4.
    pose proof (Hk "confirmPassword") as H5.
    rewrite fieldError_resetEmail in H1. rewrite fieldError_email in H2.
    rewrite fieldError_password in H3. rewrite fieldError_name in H4.
    rewrite fieldError_confirmPassword in H5. fold fd in H1, H2, H3, H4, H5.
    destruct (showForgotPassword st); cbn [negb andb] in *.
    + by apply emailError_None.
    + split; [by apply emailError_None|]. split; [by apply passwordError_None|].
      intros Hs. rewrite (bool_decide_eq_true_2 _ Hs) in H4, H5.
      cbn [andb] in H4, H5. split.
      * by destruct (truthy (trim (field fd "name"))).
      * by case_bool_decide.
  - intros Hok. apply map_eq. intros k.
    rewrite newErrors_lookup, lookup_empty. unfold fieldError. fold fd.
    destruct (showForgotPassword st); cbn [negb andb].
    + apply emailError_None in Hok. rewrite Hok. by repeat case_bool_decide.
    + destruct Hok as (He & Hp & Hs).
      apply emailError_None in He. apply passwordError_None in Hp.
      rewrite He, Hp.
      destruct (bool_decide (activeTab st = signup)) eqn:Htab.
      * apply bool_decide_eq_true in Htab. destruct (Hs Htab) as [Hn Hc].
        rewrite Hn, (bool_decide_eq_true_2 _ Hc). by repeat case_bool_decide.
      * by repeat case_bool_decide.
Qed.

Lemma rendered_Input_fieldError st k :
  resetSuccess st = false -> is_Some (fieldError st k) ->
  rendered (Input k) st = true.
Proof.
  intros Hrs [m Hm]. unfold fieldError in Hm.
  repeat case_bool_decide; subst; try discriminate;
    destruct st as [tab fp fd errs ld rs [|c aerr]]; cbn in Hrs; subst rs;
    destruct tab, fp; cbn in Hm; try discriminate; vm_compute; reflexivity.
Qed.

(** X2.  Every entry [validateForm] records is under the name of an input
    the form shows in the mode it validated: [resetEmail] alone in
    forgot-password mode, [email] and [password] in login mode, and also
    [name] and [confirmPassword] in signup mode. *)
Theorem validation_errors_on_shown_fields (st : AuthPanel) (k : string) :
  resetSuccess st = false ->
  is_Some (errors (validateForm st).1 !! k) ->
  rendered (Input k) (validateForm st).1 = true
  /\ k ∈ fieldNames
  /\ (showForgotPassword st = true -> k = "resetEmail")
  /\ (showForgotPassword st = false -> activeTab st = login ->
        k = "email" \/ k = "password").
Proof.
  intros Hrs Hk. cbn in Hk. rewrite newErrors_lookup in Hk.
  split; [|split; [|split]].
  - assert (Hr : rendered (Input k) st = true)
      by (by apply rendered_Input_fieldError).
    revert Hr. unfold rendered, render. by cbn.
  - destruct Hk as [m Hm]. unfold fieldError in Hm. unfold fieldNames.
    repeat case_bool_decide; subst; try discriminate; set_solver.
  - intros Hfp. destruct Hk as [m Hm]. unfold fieldError in Hm.
    rewrite Hfp in Hm. cbn in Hm.
    repeat case_bool_decide; subst; try discriminate; done.
  - intros Hfp Htab. destruct Hk as [m Hm]. unfold fieldError in Hm.
    rewrite Hfp, Htab in Hm. cbn in Hm.
    repeat case_bool_decide; subst; try discriminate; auto.
Qed.

Lemma validation_errors_on_shown_fields_witness :
  let st := panel (run [ClickForgotPassword; typed "password" "x"] (mount ∅)) in
  rendered (Input "resetEmail") (validateForm st).1 = true
  /\ "resetEmail" ∈ fieldNames.
Proof.
  intros st.
  destruct (validation_errors_on_shown_fields st "resetEmail") as (Hr & Hin & _).
  - vm_compute. reflexivity.
  - apply (bool_decide_unpack _). vm_compute. exact I.
  - split; [exact Hr|exact Hin].
Defined.

(** X3.  The password rule.  Outside forgot-password mode a password of
    fewer than six code units blocks the form: the entry under [password]
    is "Password is required" for the empty password and "Password must be
    at least 6 characters" otherwise; with six or more there is no entry.
    In forgot-password mode the password is not looked at. *)
Theorem password_rule (st : AuthPanel) :
  let pw := field (formData st) "password" in
  let entry := errors (validateForm st).1 !! "password" in
  (showForgotPassword st = true -> entry = None)
  /\ (showForgotPassword st = false -> pw = [] ->
        entry = Some (lit "Password is required")
        /\ (validateForm st).2 = false)
  /\ (showForgotPassword st = false -> pw <> [] -> (length pw < 6)%nat ->
        entry = Some (lit "Password must be at least 6 characters")
        /\ (validateForm st).2 = false)
  /\ (showForgotPassword st = false -> (6 <= length pw)%nat -> entry = None).
Proof.
  intros pw entry. unfold entry. cbn [validateForm fst snd errors setErrors].
  rewrite newErrors_lookup, fieldError_password. fold pw.
  split; [by intros ->|]. split; [|split].
  - intros Hfp Hpw. rewrite Hfp, Hpw. split; [reflexivity|].
    eapply nonempty_map_size. rewrite newErrors_lookup, fieldError_password.
    fold pw. rewrite Hfp, Hpw. reflexivity.
  - intros Hfp Hne Hlt.
    assert (He : passwordError pw
                 = Some (lit "Password must be at least 6 characters")).
    { unfold passwordError. destruct pw as [|c pw']; [done|]. cbn [truthy negb].
      assert ((N.of_nat (length (c :: pw')) <? 6) = true) as ->
        by (apply N.ltb_lt; lia).
      reflexivity. }
    rewrite Hfp, He. split; [reflexivity|].
    eapply nonempty_map_size. rewrite newErrors_lookup, fieldError_password.
    fold pw. by rewrite Hfp, He.
  - intros -> Hge. by apply passwordError_None.
Qed.

(** X4.  The two messages for the address the mode validates.  An address
    of white space only (the empty one included) gets "Email is required";
    an address with some other character that fails the pattern gets
    "Email is invalid"; an address the pattern accepts gets no entry. *)
Theorem email_messages (st : AuthPanel) :
  let v := field (formData st) (emailKey st) in
  let entry := errors (validateForm st).1 !! emailKey st in
  (Forall (fun c => is_space c = true) v ->
     entry = Some (lit "Email is required"))
  /\ (~ Forall (fun c => is_space c = true) v -> test emailPattern v = false ->
        entry = Some (lit "Email is invalid"))
  /\ (test emailPattern v = true -> entry = None).
Proof.
  intros v entry.
  assert (He : entry = emailError v).
  { unfold entry, v, emailKey. cbn [validateForm fst snd errors setErrors].
    rewrite newErrors_lookup.
    destruct (showForgotPassword st) eqn:Hfp.
    - by rewrite fieldError_resetEmail, Hfp.
    - by rewrite fieldError_email, Hfp. }
  rewrite He. unfold emailError. split; [|split].
  - intros Hb. apply trim_blank_iff in Hb. by rewrite Hb.
  - intros Hnb Hp. destruct (truthy (trim v)) eqn:Ht; cbn [negb].
    + by rewrite Hp.
    + by apply trim_blank_iff in Ht.
  - intros Hp. by rewrite (test_emailPattern_not_blank v Hp), Hp.
Qed.

(** X5.  The pattern is not anchored: an address counts as valid as soon
    as some part of it has the shape [u@v.w] with [u], [v], [w] non-empty
    and free of white space, so any text around an accepted address is
    accepted as well, and a string without an at sign or without a full
    stop never is. *)
Theorem emailPattern_unanchored (s pre post : jsstring) :
  (test emailPattern s = true -> test emailPattern (pre ++ s ++ post) = true)
  /\ (test emailPattern s = true -> 64 ∈ s /\ 46 ∈ s)
  /\ (forall u v w,
        Forall (fun x => x <> [] /\ Forall (fun c => is_space c = false) x)
          [u; v; w] ->
        test emailPattern (pre ++ (u ++ [64] ++ v ++ [46] ++ w) ++ post) = true).
Proof.
  split; [|split].
  - intros (p0 & u & v & w & p1 & -> & Hall)%test_emailPattern.
    apply test_emailPattern. exists (pre ++ p0), u, v, w, (p1 ++ post).
    split; [|done]. by rewrite <- !app_assoc.
  - apply test_emailPattern_at_dot.
  - intros u v w Hall. apply test_emailPattern. by exists pre, u, v, w, post.
Qed.

Lemma size_zero_empty (m : gmap string jsstring) :
  bool_decide (size m = 0%nat) = true -> m = ∅.
Proof. intros H%bool_decide_eq_true. by apply map_size_empty_iff. Qed.

(** X6.  A submit on a valid form sends exactly one request and nothing
    else leaves the form: to [/auth/forgot-password] with the single field
    [email] set to [resetEmail] in forgot-password mode; to [/auth/login]
    with [email] and [password] on the login tab; to [/auth/register] with
    [name], [email] and [password] on the signup tab.  [confirmPassword]
    is never part of a payload.  The loading flag is raised and the error
    map and the auth error are emptied. *)
Theorem valid_submit_sends_request (b : Browser) :
  let st := panel b in
  let fd := formData st in
  (validateForm st).2 = true ->
  exists p,
    inflight (handleSubmit b) = inflight b ++ [p]
    /\ (showForgotPassword st = true ->
          endpoint p = lit "/auth/forgot-password"
          /\ payload p = {["email" := field fd "resetEmail"]})
    /\ (showForgotPassword st = false -> activeTab st = login ->
          endpoint p = lit "/auth/login"
          /\ payload p = <["email" := field fd "email"]>
                           {["password" := field fd "password"]})
    /\ (showForgotPassword st = false -> activeTab st = signup ->
          endpoint p = lit "/auth/register"
          /\ payload p = <["name" := field fd "name"]>
                           (<["email" := field fd "email"]>
                              {["password" := field fd "password"]}))
    /\ payload p !! "confirmPassword" = None
    /\ isLoading (panel (handleSubmit b)) = true
    /\ errors (panel (handleSubmit b)) = ∅
    /\ authError (panel (handleSubmit b)) = []
    /\ formData (panel (handleSubmit b)) = fd
    /\ localStorage (handleSubmit b) = localStorage b
    /\ href (handleSubmit b) = href b.
Proof.
  intros st fd Hv. exists (submission st).
  rewrite (handleSubmit_valid b Hv).
  cbn [panel withPanel setInflight inflight isLoading errors authError formData
       localStorage href setIsLoading setErrors setAuthError].
  split; [reflexivity|].
  assert (He : newErrors (panel b) = ∅) by (by apply validateForm_true_empty).
  rewrite He. unfold submission. fold st fd.
  split; [by intros ->|]. split; [by intros -> ->|]. split; [by intros -> ->|].
  split; [|done].
  destruct (showForgotPassword st); [done|].
  case_bool_decide; by simplify_map_eq.
Qed.

Lemma valid_submit_sends_request_witness :
  let b := run (take 2 loginSubmitted) (mount ∅) in
  exists p, inflight (handleSubmit b) = [p]
            /\ endpoint p = lit "/auth/login"
            /\ payload p !! "password" = Some (lit "secret1").
Proof.
  intros b. destruct (valid_submit_sends_request b) as (p & Hi & _ & Hl & _).
  - vm_compute. reflexivity.
  - exists p. split; [exact Hi|].
    destruct Hl as [He Hp]; [vm_compute; reflexivity..|].
    split; [exact He|]. rewrite Hp. vm_compute. reflexivity.
Defined.

(** ** Requests, the loading flag and local storage *)

Lemma inflight_handle ev b :
  inflight (handle ev b) = inflight b
  \/ (ev = Submit /\ (validateForm (panel b)).2 = true
      /\ inflight (handle ev b) = inflight b ++ [submission (panel b)])
  \/ (exists i o, ev = Settle i o
                  /\ inflight (handle ev b) = delete i (inflight b)).
Proof.
  destruct ev as [| | | | |name value| |i o]; cbn [handle]; auto.
  - destruct ((validateForm (panel b)).2) eqn:Hv.
    + right. left. by rewrite (handleSubmit_valid b Hv).
    + left. by rewrite (handleSubmit_invalid b Hv).
  - destruct (inflight b !! i); [|by left].
    right. right. exists i, o. by rewrite inflight_resumeSubmit.
Qed.

Lemma valid_form_fields st :
  (validateForm st).2 = true ->
  emailError (field (formData st) (emailKey st)) = None
  /\ (showForgotPassword st = false ->
        passwordError (field (formData st) "password") = None).
Proof.
  intros He%validateForm_true_empty.
  assert (Hk : forall k, fieldError st k = None).
  { intros k. rewrite <- newErrors_lookup, He. apply lookup_empty. }
  pose proof (Hk "resetEmail") as H1. pose proof (Hk "email") as H2.
  pose proof (Hk "password") as H3.
  rewrite fieldError_resetEmail in H1. rewrite fieldError_email in H2.
  rewrite fieldError_password in H3. unfold emailKey.
  destruct (showForgotPassword st); split; done.
Qed.

Lemma submission_validated st :
  (validateForm st).2 = true -> validated (submission st).
Proof.
  intros [He Hp]%valid_form_fields. unfold validated, submission, emailKey in *.
  destruct (showForgotPassword st); cbn [closure_showForgotPassword endpoint payload].
  - apply emailError_None in He as [Ht Hm].
    split; [set_solver|]. split; [done|].
    unfold field at 1 2. rewrite lookup_insert_eq. cbn [default].
    split; [done|]. split; [done|]. by split.
  - apply emailError_None in He as [Ht Hm].
    specialize (Hp eq_refl). apply passwordError_None in Hp.
    case_bool_decide.
    + split; [set_solver|]. split; [split; intros; done|].
      unfold field at 1 2 3. simplify_map_eq. cbn [default]. done.
    + split; [set_solver|]. split; [split; intros; done|].
      unfold field at 1 2 3. simplify_map_eq. cbn [default]. done.
Qed.

Lemma reachable_inflight_validated b :
  reachable b -> Forall validated (inflight b).
Proof.
  revert b. apply reachable_enabled_ind.
  - intros ls. constructor.
  - intros ev b _ IH _.
    destruct (inflight_handle ev b) as [-> | [(_ & Hv & ->) | (i & o & _ & ->)]].
    + exact IH.
    + apply Forall_app. split; [exact IH|].
      constructor; [by apply submission_validated|constructor].
    + apply Forall_forall. intros p Hp%list_elem_of_delete_inv.
      by eapply Forall_forall in IH.
Qed.

(** X7.  Nothing unvalidated is ever in flight.  In every reachable state
    each outstanding request goes to one of the three auth endpoints, its
    [email] is not blank and matches the pattern, and a login or register
    request carries a password of at least six code units and never the
    [confirmPassword] field. *)
Theorem requests_in_flight_are_validated (b : Browser) (p : Pending) :
  reachable b ->
  p ∈ inflight b ->
  endpoint p ∈ [lit "/auth/forgot-password"; lit "/auth/login";
                lit "/auth/register"]
  /\ (closure_showForgotPassword p = true
      <-> endpoint p = lit "/auth/forgot-password")
  /\ truthy (trim (field (payload p) "email")) = true
  /\ test emailPattern (field (payload p) "email") = true
  /\ (closure_showForgotPassword p = false ->
        (6 <= length (field (payload p) "password"))%nat)
  /\ payload p !! "confirmPassword" = None.
Proof.
  intros Hb Hp. pose proof (reachable_inflight_validated b Hb) as Hall.
  rewrite Forall_forall in Hall. exact (Hall p Hp).
Qed.

Lemma requests_in_flight_are_validated_witness :
  let b := run loginSubmitted (mount ∅) in
  let p := submission (panel (run (take 2 loginSubmitted) (mount ∅))) in
  p ∈ inflight b
  /\ test emailPattern (field (payload p) "email") = true
  /\ (6 <= length (field (payload p) "password"))%nat.
Proof.
  intros b p.
  assert (Hin : p ∈ inflight b).
  { assert (Hi : inflight b = [p]) by (vm_compute; reflexivity).
    rewrite Hi. constructor. }
  destruct (requests_in_flight_are_validated b p) as (_ & _ & _ & Ht & Hpw & _).
  - apply reachable_run.
  - exact Hin.
  - split; [exact Hin|]. split; [exact Ht|]. apply Hpw. reflexivity.
Defined.

Lemma reachable_loading_has_request b :
  reachable b -> isLoading (panel b) = true -> inflight b <> [].
Proof.
  intros Hb. pattern b. revert b Hb. apply reachable_enabled_ind.
  - intros ls. discriminate.
  - intros ev b _ IH _.
    destruct ev as [| | | | |name value| |i o]; cbn [handle]; try exact IH.
    + cbn. rewrite isLoading_handleInputChange. exact IH.
    + destruct ((validateForm (panel b)).2) eqn:Hv.
      * rewrite (handleSubmit_valid b Hv). cbn. intros _.
        by destruct (inflight b).
      * rewrite (handleSubmit_invalid b Hv). exact IH.
    + destruct (inflight b !! i) eqn:Hp; [|exact IH]. discriminate.
Qed.

(** X8.  The loading flag tells exactly whether a request is outstanding:
    in every reachable state [isLoading] is set if and only if one request
    (and then exactly one) is in flight.  The form is never left showing
    "Processing..." with nothing to wait for. *)
Theorem loading_iff_request_in_flight (b : Browser) :
  reachable b ->
  (isLoading (panel b) = true <-> length (inflight b) = 1%nat)
  /\ (isLoading (panel b) = false <-> inflight b = []).
Proof.
  intros Hb. destruct (reachable_loading_tracks_inflight b Hb) as [Hlen Hld].
  pose proof (reachable_loading_has_request b Hb) as Hreq.
  split; split.
  - intros Hl. specialize (Hreq Hl).
    destruct (inflight b) as [|p [|q l]]; cbn in *; [done|done|lia].
  - intros H1. apply Hld. by destruct (inflight b).
  - intros Hf. destruct (inflight b) as [|p l] eqn:Hi; [done|].
    rewrite Hld in Hf; done.
  - intros Hnil. destruct (isLoading (panel b)) eqn:Hl; [|done].
    by specialize (Hreq eq_refl).
Qed.

Lemma loading_iff_request_in_flight_witness :
  let b := run loginSubmitted (mount ∅) in
  let b' := step (Settle 0 (Rejected invalidCredentials)) b in
  (isLoading (panel b) = true /\ length (inflight b) = 1%nat)
  /\ (isLoading (panel b') = false /\ inflight b' = []).
Proof.
  intros b b'. split.
  - destruct (loading_iff_request_in_flight b) as [[H1 _] _];
      [apply reachable_run|].
    assert (Hl : isLoading (panel b) = true) by (vm_compute; reflexivity).
    split; [exact Hl|exact (H1 Hl)].
  - destruct (loading_iff_request_in_flight b') as [_ [H2 _]].
    + apply reachable_step, reachable_run.
    + assert (Hl : isLoading (panel b') = false) by (vm_compute; reflexivity).
      split; [exact Hl|exact (H2 Hl)].
Defined.

Lemma localStorage_resumeSubmit p o b :
  localStorage (resumeSubmit p o b)
  = match o with
    | Fulfilled r =>
        if closure_showForgotPassword p then localStorage b
        else match data r with
             | Some d => <["token" := ToString (token d)]> (localStorage b)
             | None => localStorage b
             end
    | Rejected _ => localStorage b
    end.
Proof.
  unfold resumeSubmit, afterAwait. destruct o as [r|e]; [|reflexivity].
  destruct (closure_showForgotPassword p); [reflexivity|].
  by destruct (data r).
Qed.

Lemma localStorage_handle ev b :
  localStorage (handle ev b) = localStorage b
  \/ exists i r p d,
       ev = Settle i (Fulfilled r) /\ inflight b !! i = Some p
       /\ closure_showForgotPassword p = false /\ data r = Some d
       /\ localStorage (handle ev b)
          = <["token" := ToString (token d)]> (localStorage b).
Proof.
  destruct ev as [| | | | |name value| |i o]; cbn [handle]; auto.
  - left. destruct ((validateForm (panel b)).2) eqn:Hv.
    + by rewrite (handleSubmit_valid b Hv).
    + by rewrite (handleSubmit_invalid b Hv).
  - destruct (inflight b !! i) as [p|] eqn:Hp; [|by left].
    rewrite localStorage_resumeSubmit. cbn [localStorage setInflight].
    destruct o as [r|e]; [|by left].
    destruct (closure_showForgotPassword p) eqn:Hc; [by left|].
    destruct (data r) as [d|] eqn:Hd; [|by left].
    right. by exists i, r, p, d.
Qed.

(** X9.  The panel writes local storage in one place only.  A step leaves
    storage as it is unless it is the fulfilment, with a body, of a login
    or register request; then the one key [token] is set.  So no step
    touches any other key, and no step removes a key. *)
Theorem panel_writes_only_the_token (ev : Event) (b : Browser) :
  (localStorage (step ev b) = localStorage b
   \/ exists i r p d,
        ev = Settle i (Fulfilled r) /\ inflight b !! i = Some p
        /\ closure_showForgotPassword p = false /\ data r = Some d
        /\ localStorage (step ev b)
           = <["token" := ToString (token d)]> (localStorage b))
  /\ (forall k, k <> "token" -> localStorage (step ev b) !! k = localStorage b !! k)
  /\ (forall k, is_Some (localStorage b !! k) ->
                is_Some (localStorage (step ev b) !! k)).
Proof.
  assert (H : localStorage (step ev b) = localStorage b
              \/ exists i r p d,
                   ev = Settle i (Fulfilled r) /\ inflight b !! i = Some p
                   /\ closure_showForgotPassword p = false /\ data r = Some d
                   /\ localStorage (step ev b)
                      = <["token" := ToString (token d)]> (localStorage b)).
  { unfold step. destruct (enabled ev b); [|by left]. apply localStorage_handle. }
  split; [exact H|]. split.
  - intros k Hk. destruct H as [-> | (i & r & p & d & _ & _ & _ & _ & ->)]; [done|].
    by apply lookup_insert_ne.
  - intros k Hk. destruct H as [-> | (i & r & p & d & _ & _ & _ & _ & ->)]; [done|].
    rewrite lookup_insert_is_Some. destruct (decide ("token" = k)); auto.
Qed.

(** X10.  Every submit, accepted or not, wipes the previous auth error
    (the banner disappears) and replaces the whole error map by the result
    of this validation; the typed values, the mode, local storage and the
    location are not touched. *)
Theorem submit_resets_errors (b : Browser) :
  authError (panel (handleSubmit b)) = []
  /\ rendered ErrorBox (panel (handleSubmit b)) = false
  /\ errors (panel (handleSubmit b)) = newErrors (panel b)
  /\ formData (panel (handleSubmit b)) = formData (panel b)
  /\ flags (panel (handleSubmit b)) = flags (panel b)
  /\ localStorage (handleSubmit b) = localStorage b
  /\ href (handleSubmit b) = href b.
Proof.
  rewrite rendered_ErrorBox.
  destruct ((validateForm (panel b)).2) eqn:Hv.
  - rewrite (handleSubmit_valid b Hv). by repeat split.
  - rewrite (handleSubmit_invalid b Hv). by repeat split.
Qed.

(** ** The response interceptor and the [catch] clause *)

(** X11.  The response interceptor changes nothing of the error but its
    [customMessage], which it always sets to a non-empty string, whatever
    was there before.  So for an error that comes out of the interceptor
    the [catch] clause shows that message and never reaches its own
    alternatives ([err.response?.data?.msg], "An error occurred"). *)
Theorem interceptor_always_attaches_message (e : AxiosError) :
  let e' := responseInterceptor e in
  code e' = code e /\ response e' = response e /\ request e' = request e
  /\ truthy_opt (customMessage e') = true
  /\ customMessage e' = Some (catchMessage (ThrownAxios e'))
  /\ responseInterceptor e' = e'.
Proof.
  intros e'.
  destruct (customMessage_truthy e) as (m & Hm & Ht). fold e' in Hm.
  assert (Hshape : forall x, exists mx, responseInterceptor x = withCustomMessage mx x
                     /\ forall cm, responseInterceptor
                                     {| code := code x; response := response x;
                                        request := request x; customMessage := cm |}
                                   = withCustomMessage mx x).
  { intros [c r q cm0]. unfold responseInterceptor. cbn [code response request].
    destruct (bool_decide (c = Some ERR_NETWORK));
      [|destruct (bool_decide (c = Some ECONNABORTED));
        [|destruct r; [|destruct q]]];
      (eexists; split; [reflexivity|intros cm; reflexivity]). }
  destruct (Hshape e) as (me & He & Hidem). fold e' in He.
  pose proof (catchMessage_intercepted e) as Hcatch. fold e' in Hcatch.
  rewrite Hm in Hcatch. rewrite Hm.
  assert (me = m) as -> by (rewrite He in Hm; by injection Hm).
  clearbody e'. subst e'.
  cbn [code response request customMessage withCustomMessage truthy_opt].
  split; [done|]. split; [done|]. split; [done|].
  split; [exact Ht|]. split; [by rewrite Hcatch|]. apply (Hidem (Some m)).
Qed.

(** X12.  The fixed messages of a rejection that is neither a network
    error nor a timeout: a response without a usable [msg] (no body, no
    [msg], or an empty one) gives "Server error occurred."; no response
    but a request gives "No response from server. Please check your
    network connection."; neither gives "An error occurred while
    processing your request.". *)
Theorem fallback_messages
    (b : Browser) (i : nat) (p : Pending) (e : AxiosError) :
  inflight b !! i = Some p ->
  code e <> Some ERR_NETWORK ->
  code e <> Some ECONNABORTED ->
  let shown := authError (panel (handle (Settle i (Rejected e)) b)) in
  (forall r, response e = Some r -> truthy_opt (response_msg r) = false ->
             shown = lit "Server error occurred.")
  /\ (response e = None -> request e = true ->
        shown = lit "No response from server. Please check your network connection.")
  /\ (response e = None -> request e = false ->
        shown = lit "An error occurred while processing your request.").
Proof.
  intros Hp Hn Hn' shown.
  assert (Ha : Some shown = customMessage (responseInterceptor e)).
  { unfold shown. rewrite (settle_rejected b i p e Hp). cbn.
    apply catchMessage_intercepted. }
  clearbody shown. unfold responseInterceptor in Ha.
  rewrite (bool_decide_eq_false_2 _ Hn), (bool_decide_eq_false_2 _ Hn') in Ha.
  split; [|split].
  - intros r Hr Hm. rewrite Hr in Ha. cbn in Ha.
    destruct (response_msg r) as [m|]; cbn in Ha, Hm.
    + rewrite Hm in Ha. by injection Ha.
    + by injection Ha.
  - intros Hr Hq. rewrite Hr, Hq in Ha. by injection Ha.
  - intros Hr Hq. rewrite Hr, Hq in Ha. by injection Ha.
Qed.

Lemma fallback_messages_witness :
  let b := run loginSubmitted (mount ∅) in
  authError (panel (handle (Settle 0 (Rejected noResponse)) b))
  = lit "No response from server. Please check your network connection.".
Proof.
  intros b.
  destruct (fallback_messages b 0
              (submission (panel (run (take 2 loginSubmitted) (mount ∅))))
              noResponse) as (_ & Hq & _).
  - vm_compute. reflexivity.
  - vm_compute. discriminate.
  - vm_compute. discriminate.
  - apply Hq; reflexivity.
Defined.

(** X13.  A login or register request fulfilled without a body: reading
    [response.data.token] throws, the [catch] clause shows "An error
    occurred", no token is stored, the page is not left and the loading
    flag is cleared. *)
Theorem fulfilled_without_body
    (b : Browser) (i : nat) (p : Pending) (r : Response) :
  inflight b !! i = Some p ->
  closure_showForgotPassword p = false ->
  data r = None ->
  let b' := handle (Settle i (Fulfilled r)) b in
  authError (panel b') = lit "An error occurred"
  /\ rendered ErrorBox (panel b') = true
  /\ localStorage b' = localStorage b
  /\ href b' = href b
  /\ isLoading (panel b') = false
  /\ flags (panel b') = flags (panel b).
Proof.
  intros Hp Hc Hd b'. unfold b'. rewrite (settle_fulfilled b i p r Hp).
  rewrite rendered_ErrorBox.
  unfold resumeSubmit, afterAwait. rewrite Hc, Hd. by repeat split.
Qed.

Lemma fulfilled_without_body_witness :
  let b := run loginSubmitted (mount ∅) in
  let b' := handle (Settle 0 (Fulfilled {| status := 200; data := None |})) b in
  authError (panel b') = lit "An error occurred" /\ localStorage b' = ∅.
Proof.
  intros b b'.
  destruct (fulfilled_without_body b 0
              (submission (panel (run (take 2 loginSubmitted) (mount ∅))))
              {| status := 200; data := None |}) as (Ha & _ & Hs & _).
  - vm_compute. reflexivity.
  - vm_compute. reflexivity.
  - reflexivity.
  - split; [exact Ha|]. unfold b'. rewrite Hs. vm_compute. reflexivity.
Defined.

(** X14.  A login or register request fulfilled with a body that has no
    [token]: [setItem] stores the string "undefined" under [token] and the
    page goes to [/dashboard], where that string passes for a token: the
    dashboard shows the profile and does not redirect. *)
Theorem missing_token_is_stored_as_undefined
    (b : Browser) (i : nat) (p : Pending) (r : Response) (d : ResponseData)
    (now : jsstring) :
  inflight b !! i = Some p ->
  closure_showForgotPassword p = false ->
  data r = Some d ->
  token d = None ->
  let b' := handle (Settle i (Fulfilled r)) b in
  localStorage b' !! "token" = Some (lit "undefined")
  /\ href b' = Some (lit "/dashboard")
  /\ Dashboard.mounted now (localStorage b')
     = (Dashboard.Profile (Some (lit "Demo User"))
          (Some (lit "user@example.com")) (Some now), None).
Proof.
  intros Hp Hc Hd Ht b'. unfold b'. rewrite (settle_fulfilled b i p r Hp).
  unfold resumeSubmit, afterAwait. rewrite Hc, Hd, Ht.
  cbn [withPanel setItem setHref localStorage href ToString].
  assert (Hl : (<["token" := lit "undefined"]> (localStorage b) : gmap string jsstring)
                 !! "token" = Some (lit "undefined")) by apply lookup_insert_eq.
  split; [exact Hl|]. split; [reflexivity|].
  unfold Dashboard.mounted, Dashboard.effect.
  cbn [localStorage setInflight]. rewrite Hl. reflexivity.
Qed.

Lemma missing_token_is_stored_as_undefined_witness :
  let b := run loginSubmitted (mount ∅) in
  let b' := handle (Settle 0 (Fulfilled emptyResponse)) b in
  localStorage b' !! "token" = Some (lit "undefined")
  /\ (Dashboard.mounted (lit "2023-09-01T10:00:00.000Z") (localStorage b')).2 = None.
Proof.
  intros b b'.
  destruct (missing_token_is_stored_as_undefined b 0
              (submission (panel (run (take 2 loginSubmitted) (mount ∅))))
              emptyResponse {| token := None; msg := None |}
              (lit "2023-09-01T10:00:00.000Z")) as (Hs & _ & Hd).
  - vm_compute. reflexivity.
  - vm_compute. reflexivity.
  - reflexivity.
  - reflexivity.
  - split; [exact Hs|]. unfold b'. by rewrite Hd.
Defined.

(** ** The dashboard and the session *)

(** X15.  A session from login to logout.  Once a login or register
    request is fulfilled with a non-empty token, the dashboard mounted over
    the resulting storage shows the profile; [handleLogout] then removes
    the key [token] and nothing else and goes to [/], after which the
    dashboard redirects to [/] again.  Logging out twice is logging out
    once. *)
Theorem login_dashboard_logout
    (b : Browser) (i : nat) (p : Pending) (r : Response) (d : ResponseData)
    (t now : jsstring) :
  inflight b !! i = Some p ->
  closure_showForgotPassword p = false ->
  data r = Some d ->
  token d = Some t ->
  t <> [] ->
  let ls := localStorage (handle (Settle i (Fulfilled r)) b) in
  let out := Dashboard.handleLogout ls in
  Dashboard.mounted now ls
  = (Dashboard.Profile (Some (lit "Demo User"))
       (Some (lit "user@example.com")) (Some now), None)
  /\ out.1 !! "token" = None
  /\ (forall k, k <> "token" -> out.1 !! k = localStorage b !! k)
  /\ out.2 = lit "/"
  /\ Dashboard.mounted now out.1 = (Dashboard.Spinner, Some (lit "/"))
  /\ Dashboard.handleLogout out.1 = out.
Proof.
  intros Hp Hc Hd Ht Hne ls out.
  assert (Hls : ls = <["token" := t]> (localStorage b)).
  { unfold ls. rewrite (settle_fulfilled b i p r Hp).
    unfold resumeSubmit, afterAwait. rewrite Hc, Hd, Ht. reflexivity. }
  assert (Hout : out.1 !! "token" = None) by apply lookup_delete_eq.
  split; [|split; [exact Hout|split; [|split; [reflexivity|split]]]].
  - unfold Dashboard.mounted, Dashboard.effect. rewrite Hls, lookup_insert_eq.
    destruct t; [done|reflexivity].
  - intros k Hk. unfold out, Dashboard.handleLogout. cbn [fst].
    rewrite lookup_delete_ne by done. rewrite Hls. by apply lookup_insert_ne.
  - unfold Dashboard.mounted, Dashboard.effect. by rewrite Hout.
  - unfold out, Dashboard.handleLogout. cbn [fst]. f_equal.
    apply delete_id. apply lookup_delete_eq.
Qed.

Lemma login_dashboard_logout_witness :
  let b := run loginSubmitted (mount (<["theme" := lit "dark"]> ∅)) in
  let ls := localStorage (handle (Settle 0 (Fulfilled (tokenResponse (lit "eyJhbGciOi")))) b) in
  (Dashboard.mounted (lit "2023-09-01T10:00:00.000Z") ls).2 = None
  /\ (Dashboard.handleLogout ls).1 !! "theme" = Some (lit "dark")
  /\ (Dashboard.handleLogout ls).1 !! "token" = None.
Proof.
  intros b ls.
  destruct (login_dashboard_logout b 0
              (submission (panel (run (take 2 loginSubmitted) (mount ∅))))
              (tokenResponse (lit "eyJhbGciOi"))
              {| token := Some (lit "eyJhbGciOi"); msg := None |}
              (lit "eyJhbGciOi") (lit "2023-09-01T10:00:00.000Z"))
    as (Hm & Ht & Hk & _).
  - vm_compute. reflexivity.
  - vm_compute. reflexivity.
  - reflexivity.
  - reflexivity.
  - vm_compute. discriminate.
  - split; [unfold ls; by rewrite Hm|]. split; [|exact Ht].
    unfold ls. rewrite (Hk "theme") by discriminate. vm_compute. reflexivity.
Defined.

(** X16.  The dashboard shows the profile exactly when the value stored
    under [token] is a non-empty string, and redirects to [/] exactly
    otherwise (no entry, or the empty string); when it redirects it keeps
    showing the spinner and sets no user. *)
Theorem dashboard_profile_iff_token (now : jsstring) (ls : gmap string jsstring) :
  let '(st, redirect) := Dashboard.effect now ls Dashboard.initial in
  (redirect = None <-> truthy_opt (ls !! "token") = true)
  /\ (redirect = Some (lit "/") <-> truthy_opt (ls !! "token") = false)
  /\ (Dashboard.render st = Dashboard.Spinner <-> redirect = Some (lit "/"))
  /\ (is_Some (Dashboard.user st) <-> redirect = None).
Proof.
  unfold Dashboard.effect.
  destruct (truthy_opt (ls !! "token")); cbn.
  - repeat split; try done; try (intros [? ?]; done); eauto.
  - repeat split; try done; try (intros [? ?]; done); eauto.
Qed.

(** ** Moving between the views *)

Lemma rendered_links st :
  rendered TabButtons st = negb (showForgotPassword st)
  /\ rendered SwitchLink st
     = negb (showForgotPassword st) && negb (resetSuccess st)
  /\ rendered ForgotPasswordLink st
     = negb (showForgotPassword st) && negb (resetSuccess st)
       && bool_decide (activeTab st = login)
  /\ rendered BackToLoginLink st
     = showForgotPassword st && negb (resetSuccess st).
Proof.
  destruct st as [tab fp fd errs ld rs [|c aerr]];
    destruct tab, fp, rs; vm_compute; done.
Qed.

(** X17.  Opening the reset form and coming back.  From the login view
    "Forgot your password?" leads to the reset form and "Back to Login"
    leads back to the login view; both keep every typed value, the loading
    flag and the requests in flight, and both empty the error map and the
    auth error.  From a login view without errors the round trip restores
    the page exactly. *)
Theorem forgot_and_back (b : Browser) :
  href b = None ->
  mode (panel b) = LoginView ->
  let b1 := step ClickForgotPassword b in
  let b2 := step ClickBackToLogin b1 in
  (mode (panel b1) = ForgotPasswordView /\ mode (panel b2) = LoginView)
  /\ (formData (panel b1) = formData (panel b)
      /\ formData (panel b2) = formData (panel b))
  /\ (errors (panel b1) = ∅ /\ authError (panel b1) = []
      /\ errors (panel b2) = ∅ /\ authError (panel b2) = [])
  /\ (isLoading (panel b2) = isLoading (panel b)
      /\ inflight b2 = inflight b /\ localStorage b2 = localStorage b)
  /\ (errors (panel b) = ∅ -> authError (panel b) = [] -> b2 = b).
Proof.
  intros Hh Hm b1 b2.
  destruct b as [[tab fp fd errs ld rs aerr] ls h infl].
  cbn in Hh. subst h. unfold mode in Hm. cbn in Hm.
  destruct rs; [discriminate|]. destruct fp; [discriminate|].
  destruct tab; [|discriminate]. clear Hm.
  assert (H1 : b1 = withPanel handleForgotPassword
                      {| panel := {| activeTab := login; showForgotPassword := false;
                                     formData := fd; errors := errs; isLoading := ld;
                                     resetSuccess := false; authError := aerr |};
                         localStorage := ls; href := None; inflight := infl |}).
  { unfold b1, step, enabled.
    rewrite (proj1 (proj2 (proj2 (rendered_links _)))). reflexivity. }
  assert (H2 : b2 = withPanel handleBackToLogin b1).
  { unfold b2, step, enabled. rewrite H1.
    rewrite (proj2 (proj2 (proj2 (rendered_links _)))), rendered_EmailSentPanel.
    reflexivity. }
  rewrite H2, H1. cbn. repeat split; try done.
  intros -> ->. reflexivity.
Qed.

Lemma forgot_and_back_witness :
  let b := run [typed "email" "user@example.com"] (mount ∅) in
  let b2 := run [ClickForgotPassword; ClickBackToLogin] b in
  field (formData (panel b2)) "email" = lit "user@example.com" /\ b2 = b.
Proof.
  intros b b2.
  destruct (forgot_and_back b) as (_ & (_ & Hf) & _ & _ & Heq).
  - reflexivity.
  - reflexivity.
  - split.
    + unfold b2. cbn [run foldl]. rewrite Hf. vm_compute. reflexivity.
    + apply Heq; reflexivity.
Defined.

(** X18.  Changing tab changes [activeTab] and nothing else: typed values,
    recorded errors (also those of fields the other tab does not show), the
    auth error, the loading flag, storage and requests stay.  The link
    under the form is an involution: clicked twice, the page is as before. *)
Theorem tab_change_keeps_form (ev : Event) (b : Browser) :
  ev ∈ [ClickSignInTab; ClickRegisterTab; ClickSwitch] ->
  let b' := step ev b in
  (formData (panel b') = formData (panel b)
   /\ errors (panel b') = errors (panel b)
   /\ authError (panel b') = authError (panel b)
   /\ isLoading (panel b') = isLoading (panel b)
   /\ showForgotPassword (panel b') = showForgotPassword (panel b)
   /\ resetSuccess (panel b') = resetSuccess (panel b))
  /\ (localStorage b' = localStorage b /\ href b' = href b
      /\ inflight b' = inflight b)
  /\ (ev = ClickSwitch -> enabled ev b = true ->
        activeTab (panel b') <> activeTab (panel b) /\ step ev b' = b).
Proof.
  intros Hev b'.
  assert (Hcases : ev = ClickSignInTab \/ ev = ClickRegisterTab \/ ev = ClickSwitch).
  { rewrite !elem_of_cons, elem_of_nil in Hev. tauto. }
  unfold b', step.
  destruct Hcases as [-> | [-> | ->]].
  - destruct (enabled _ b); [|by repeat split]. by repeat split.
  - destruct (enabled _ b); [|by repeat split]. by repeat split.
  - destruct (enabled ClickSwitch b) eqn:Hen; [|by repeat split].
    split; [by repeat split|]. split; [by repeat split|].
    intros _ _.
    assert (Hen' : enabled ClickSwitch (handle ClickSwitch b) = true).
    { revert Hen. unfold enabled. cbn [handle withPanel href panel].
      rewrite !(proj1 (proj2 (rendered_links _))). by cbn. }
    rewrite Hen'.
    destruct b as [[tab fp fd errs ld rs aerr] ls h infl].
    destruct tab; cbn; split; done.
Qed.

Lemma tab_change_keeps_form_witness :
  let b := run [ClickRegisterTab; typed "password" "secret1";
                typed "confirmPassword" "secret2"; Submit] (mount ∅) in
  let b' := step ClickSwitch b in
  mode (panel b') = LoginView
  /\ errors (panel b') !! "confirmPassword" = Some (lit "Passwords do not match")
  /\ step ClickSwitch b' = b.
Proof.
  intros b b'.
  destruct (tab_change_keeps_form ClickSwitch b) as ((_ & He & _) & _ & Hinv).
  - set_solver.
  - split; [vm_compute; reflexivity|]. split.
    + unfold b'. rewrite He. vm_compute. reflexivity.
    + apply Hinv; [reflexivity|vm_compute; reflexivity].
Defined.

(** X19.  Edits compose as assignments do: a second edit of the same
    field overrides the first, and edits of different fields commute. *)
Theorem edits_compose (n1 n2 : string) (v1 v2 : jsstring) (st : AuthPanel) :
  handleInputChange n1 v2 (handleInputChange n1 v1 st)
  = handleInputChange n1 v2 st
  /\ (n1 <> n2 ->
        handleInputChange n1 v1 (handleInputChange n2 v2 st)
        = handleInputChange n2 v2 (handleInputChange n1 v1 st)).
Proof.
  destruct st as [tab fp fd errs ld rs aerr].
  unfold handleInputChange, setErrors, setFormData. cbn.
  split.
  - destruct (truthy_opt (errs !! n1)) eqn:H1; cbn.
    + rewrite lookup_delete_eq. cbn. by rewrite insert_insert_eq.
    + rewrite H1. cbn. by rewrite insert_insert_eq.
  - intros Hne.
    destruct (truthy_opt (errs !! n1)) eqn:H1,
             (truthy_opt (errs !! n2)) eqn:H2; cbn;
      rewrite ?lookup_delete_ne by done; rewrite ?H1, ?H2; cbn;
      f_equal; try (by apply insert_insert_ne); by apply delete_delete.
Qed.

Lemma edits_compose_witness :
  let st := panel (mount ∅) in
  handleInputChange "email" (lit "a@b.c") (handleInputChange "name" (lit "Ada") st)
  = handleInputChange "name" (lit "Ada") (handleInputChange "email" (lit "a@b.c") st).
Proof.
  intros st.
  destruct (edits_compose "email" "name" (lit "a@b.c") (lit "Ada") st) as [_ Hc].
  apply Hc. discriminate.
Defined.

(** ** What the form can hold *)

Lemma rendered_Input_name st name :
  rendered (Input name) st = true -> name ∈ fieldNames.
Proof.
  unfold rendered, fieldNames. intros H%bool_decide_eq_true. revert H.
  destruct st as [tab fp fd errs ld rs [|c aerr]];
    destruct tab, fp, rs; cbn; intros H;
    repeat (apply elem_of_cons in H as [H|H];
            [try done; simplify_eq; set_solver|]);
    by apply elem_of_nil in H.
Qed.

(** X20.  The form data always consists of exactly the five fields the
    component starts with: an edit can only come from a rendered input,
    whose name is one of the five, and no handler removes a field. *)
Theorem formData_keeps_its_five_fields (b : Browser) :
  reachable b ->
  dom (formData (panel b)) = list_to_set fieldNames
  /\ forall k, is_Some (formData (panel b) !! k) <-> k ∈ fieldNames.
Proof.
  intros Hb.
  assert (Hdom : dom (formData (panel b)) = list_to_set fieldNames).
  { pattern b. revert b Hb. apply reachable_enabled_ind.
    - intros ls. cbn. unfold initialFormData, fieldNames.
      rewrite !dom_insert_L, dom_empty_L. cbn. by rewrite (right_id_L ∅ (∪)).
    - intros ev b _ IH Hen. rewrite formData_handle.
      destruct ev as [| | | | |name value| |i o]; try exact IH.
      apply andb_prop in Hen as [_ Hen]. apply rendered_Input_name in Hen.
      rewrite dom_insert_L, IH. apply subseteq_union_1_L.
      apply singleton_subseteq_l. by apply elem_of_list_to_set. }
  split; [exact Hdom|]. intros k.
  by rewrite <- elem_of_dom, Hdom, elem_of_list_to_set.
Qed.

Lemma formData_keeps_its_five_fields_witness :
  let b := run (loginSubmitted ++ [Change "nickname" (lit "x")]) (mount ∅) in
  formData (panel b) !! "nickname" = None
  /\ is_Some (formData (panel b) !! "confirmPassword").
Proof.
  intros b.
  destruct (formData_keeps_its_five_fields b) as [_ Hk]; [apply reachable_run|].
  split.
  - apply eq_None_not_Some. rewrite Hk.
    apply (bool_decide_unpack _). vm_compute. exact I.
  - apply Hk. apply (bool_decide_unpack _). vm_compute. exact I.
Defined.

Lemma fieldError_known st k m : fieldError st k = Some m -> (k, m) ∈ knownErrors.
Proof.
  unfold fieldError, emailError, passwordError, knownErrors.
  repeat case_bool_decide; subst;
    repeat (match goal with
            | |- context [if ?c then _ else _] => destruct c
            end);
    intros [= <-] || discriminate; set_solver.
Qed.

Lemma reachable_errors_known b :
  reachable b ->
  forall k m, errors (panel b) !! k = Some m -> (k, m) ∈ knownErrors.
Proof.
  intros Hb. pattern b. revert b Hb. apply reachable_enabled_ind.
  - intros ls k m. cbn. by rewrite lookup_empty.
  - intros ev b _ IH _ k m.
    destruct (errors_handle ev b) as [-> | [-> | [-> | [name ->]]]].
    + apply IH.
    + by rewrite lookup_empty.
    + rewrite newErrors_lookup. apply fieldError_known.
    + intros [_ H]%lookup_delete_Some. by apply IH.
Qed.

(** X21.  In every reachable state each entry of the error map is one of
    the eight (field, message) pairs that [validateForm] writes: the keys
    are field names and the messages are the fixed, non-empty texts. *)
Theorem error_map_holds_known_entries (b : Browser) (k : string) (m : jsstring) :
  reachable b ->
  errors (panel b) !! k = Some m ->
  (k, m) ∈ knownErrors /\ k ∈ fieldNames /\ m <> [].
Proof.
  intros Hb Hk. pose proof (reachable_errors_known b Hb k m Hk) as Hin.
  split; [exact Hin|].
  unfold knownErrors, fieldNames in *.
  rewrite !elem_of_cons, elem_of_nil in Hin.
  repeat destruct Hin as [Hin|Hin]; try done;
    injection Hin as -> ->; split; (set_solver || discriminate).
Qed.

Lemma error_map_holds_known_entries_witness :
  let b := run [ClickForgotPassword; typed "resetEmail" "bad-email"; Submit]
             (mount ∅) in
  ("resetEmail", lit "Email is invalid") ∈ knownErrors.
Proof.
  intros b.
  destruct (error_map_holds_known_entries b "resetEmail" (lit "Email is invalid"))
    as [Hin _].
  - apply reachable_run.
  - vm_compute. reflexivity.
  - exact Hin.
Defined.

(** X22.  What an input shows of the error map.  In every reachable state
    the [InputField] named [k] displays the entry of [k] in the error map
    as it is, and has the red border exactly when there is such an entry;
    without one the border is cyan when the field is focused or filled and
    grey otherwise. *)
Theorem input_shows_recorded_error (b : Browser) (k : string) (focused : bool) :
  reachable b ->
  let shown := InputField.render focused (inputProps k (panel b)) in
  InputField.errorText shown = errors (panel b) !! k
  /\ (InputField.border shown = InputField.BorderRed
      <-> is_Some (errors (panel b) !! k))
  /\ (errors (panel b) !! k = None ->
        InputField.border shown
        = if focused || truthy (field (formData (panel b)) k)
          then InputField.BorderCyan else InputField.BorderGray)
  /\ InputField.labelRaised shown
     = focused || truthy (field (formData (panel b)) k).
Proof.
  intros Hb shown. pose proof (reachable_messages_nonempty b Hb) as Hne.
  unfold shown, InputField.render, inputProps. cbn.
  destruct (errors (panel b) !! k) as [m|] eqn:Hk; cbn.
  - rewrite (Hne _ _ Hk). repeat split; eauto; done.
  - repeat split; try done; try (by intros [? ?]).
    destruct (focused || _); discriminate.
Qed.

Lemma input_shows_recorded_error_witness :
  let b := run [typed "email" "bad-email"; Submit] (mount ∅) in
  InputField.errorText (InputField.render false (inputProps "email" (panel b)))
  = Some (lit "Email is invalid").
Proof.
  intros b.
  destruct (input_shows_recorded_error b "email" false) as (He & _).
  - apply reachable_run.
  - rewrite He. vm_compute. reflexivity.
Defined.

(** ** The hint under the error banner *)

Lemma startsWith_spec s sub :
  startsWith s sub = true <-> exists post, s = sub ++ post.
Proof.
  revert s. induction sub as [|c sub IH]; intros s.
  - destruct s; cbn; (split; [intros _; by eexists|done]).
  - destruct s as [|d s]; cbn.
    + split; [done|]. by intros [post ?].
    + rewrite andb_true_iff, IH, N.eqb_eq. split.
      * intros [-> [post ->]]. by exists post.
      * intros [post [= -> ->]]. split; [done|]. by exists post.
Qed.

Lemma includes_spec s sub :
  includes s sub = true <-> exists pre post, s = pre ++ sub ++ post.
Proof.
  induction s as [|d s IH]; cbn [includes].
  - rewrite orb_false_r, startsWith_spec. split.
    + intros [post ->]. by exists [], post.
    + intros (pre & post & H). symmetry in H.
      apply app_eq_nil in H as [-> H]. by exists post.
  - rewrite orb_true_iff, IH.
    rewrite startsWith_spec. split.
    + intros [[post H]|(pre & post & ->)].
      * by exists [], post.
      * by exists (d :: pre), post.
    + intros (pre & post & H). destruct pre as [|c pre].
      * left. by exists post.
      * injection H as -> ->. right. by exists pre, post.
Qed.

(** X23.  The line about the backend on port 5000 appears exactly when
    the displayed message contains "Unable to connect to the server".  It
    does after a network error; it does not after a timeout or with any of
    the fixed fallback messages, and never right after a submit. *)
Theorem port_hint_follows_network_error
    (b : Browser) (i : nat) (p : Pending) (e : AxiosError) :
  inflight b !! i = Some p ->
  let st' := panel (handle (Settle i (Rejected e)) b) in
  (forall st, portHint st = true
     <-> exists pre post,
           authError st = pre ++ lit "Unable to connect to the server" ++ post)
  /\ (code e = Some ERR_NETWORK -> portHint st' = true)
  /\ (code e <> Some ERR_NETWORK ->
        (forall r, response e = Some r -> truthy_opt (response_msg r) = false) ->
        portHint st' = false)
  /\ portHint (panel (handleSubmit b)) = false.
Proof.
  intros Hp st'.
  assert (Ha : Some (authError st') = customMessage (responseInterceptor e)).
  { unfold st'. rewrite (settle_rejected b i p e Hp). cbn.
    apply catchMessage_intercepted. }
  split; [|split; [|split]].
  - intros st. unfold portHint. rewrite andb_true_iff, includes_spec. split.
    + by intros [_ H].
    + intros (pre & post & H). split; [|by exists pre, post].
      rewrite H. by destruct pre.
  - intros Hc. unfold portHint. unfold responseInterceptor in Ha.
    rewrite (bool_decide_eq_true_2 _ Hc) in Ha. injection Ha as ->.
    vm_compute. reflexivity.
  - intros Hn Hnone. unfold portHint. unfold responseInterceptor in Ha.
    rewrite (bool_decide_eq_false_2 _ Hn) in Ha.
    destruct (bool_decide (code e = Some ECONNABORTED)).
    { injection Ha as ->. vm_compute. reflexivity. }
    destruct (response e) as [r|] eqn:Hr.
    + specialize (Hnone r eq_refl). cbn in Ha.
      destruct (response_msg r) as [m|]; cbn in Ha, Hnone.
      * rewrite Hnone in Ha. injection Ha as ->. vm_compute. reflexivity.
      * injection Ha as ->. vm_compute. reflexivity.
    + destruct (request e); injection Ha as ->; vm_compute; reflexivity.
  - unfold portHint.
    destruct ((validateForm (panel b)).2) eqn:Hv.
    + by rewrite (handleSubmit_valid b Hv).
    + by rewrite (handleSubmit_invalid b Hv).
Qed.

Lemma port_hint_follows_network_error_witness :
  let b := run loginSubmitted (mount ∅) in
  portHint (panel (handle (Settle 0 (Rejected connectionRefused)) b)) = true.
Proof.
  intros b.
  destruct (port_hint_follows_network_error b 0
              (submission (panel (run (take 2 loginSubmitted) (mount ∅))))
              connectionRefused) as (_ & Hn & _).
  - vm_compute. reflexivity.
  - apply Hn. reflexivity.
Defined.

(** ** Runs in which every reset request is answered in time *)

(** X24.  As long as no reset request is answered after the reset form
    was left, the panel stays within the four designed states:
    [resetSuccess] is set only with [showForgotPassword], the reset form
    is only open on the login tab, and every step either keeps the view or
    takes one of the listed transitions. *)
Theorem on_time_runs_follow_listed_transitions (b : Browser) (ev : Event) :
  reachable_on_time b ->
  late ev b = false ->
  (resetSuccess (panel b) = true -> showForgotPassword (panel b) = true)
  /\ (showForgotPassword (panel b) = true -> activeTab (panel b) = login)
  /\ (mode (panel (step ev b)) = mode (panel b)
      \/ listed (mode (panel b)) (mode (panel (step ev b))) = true)
  /\ reachable_on_time (step ev b).
Proof.
  intros Hb Hl. pose proof (on_time_designed b Hb) as [Hd1 Hd2].
  split; [exact Hd1|]. split; [exact Hd2|]. split.
  - by apply listed_unless_late.
  - by constructor.
Qed.

Lemma on_time_runs_follow_listed_transitions_witness :
  let b := run (take 3 resetCarriedThrough) (mount ∅) in
  let b' := step (Settle 0 (Fulfilled emptyResponse)) b in
  mode (panel b) = ForgotPasswordView /\ mode (panel b') = ResetSuccessView
  /\ listed (mode (panel b)) (mode (panel b')) = true.
Proof.
  intros b b'.
  destruct (on_time_runs_follow_listed_transitions b
              (Settle 0 (Fulfilled emptyResponse))) as (_ & _ & Hstep & _).
  - unfold b. cbn [take resetCarriedThrough run foldl].
    repeat (apply on_time_step; [|vm_compute; reflexivity]).
    apply on_time_mount.
  - vm_compute. reflexivity.
  - split; [vm_compute; reflexivity|]. split; [vm_compute; reflexivity|].
    destruct Hstep as [Hs|Hs]; [|exact Hs].
    vm_compute in Hs. discriminate.
Defined.

(** ** More invariants of the reachable states *)

Lemma reachable_reset_form_on_login_tab b :
  reachable b -> showForgotPassword (panel b) = true -> activeTab (panel b) = login.
Proof.
  intros Hb. pattern b. revert b Hb. apply reachable_enabled_ind.
  - intros ls. discriminate.
  - intros ev b _ IH Hen.
    destruct (enabled_clicks b) as (H1 & H2 & H3 & H4 & H5).
    destruct ev as [| | | | |name value| |i o]; cbn [handle].
    + cbn. rewrite (H1 Hen). discriminate.
    + cbn. rewrite (H2 Hen). discriminate.
    + cbn. rewrite (proj1 (H3 Hen)). discriminate.
    + cbn. intros _. apply (H4 Hen).
    + cbn. discriminate.
    + cbn [panel withPanel].
      pose proof (flags_handleInputChange name value (panel b)) as Hf.
      set (st' := handleInputChange name value (panel b)) in *. clearbody st'.
      unfold flags in Hf. injection Hf as -> -> _. exact IH.
    + pose proof (flags_handleSubmit b) as Hf.
      set (st' := panel (handleSubmit b)) in *. clearbody st'.
      unfold flags in Hf. injection Hf as -> -> _. exact IH.
    + destruct (inflight b !! i) as [p|]; [|exact IH].
      pose proof (flags_resumeSubmit p o (setInflight (delete i (inflight b)) b)) as Hf.
      cbn [panel setInflight] in Hf.
      set (st' := panel (resumeSubmit p o _)) in *. clearbody st'.
      unfold flags in Hf.
      destruct o as [r|e]; [destruct (closure_showForgotPassword p)|];
        injection Hf as -> -> _; exact IH.
Qed.

(** X25.  The reset form is only ever open over the login tab, in every
    reachable state, late answers included: so "Back to Login" from the
    open reset form always shows the login form, never the signup form. *)
Theorem reset_form_only_over_login_tab (b : Browser) :
  reachable b ->
  showForgotPassword (panel b) = true ->
  activeTab (panel b) = login
  /\ rendered TabButtons (panel b) = false
  /\ mode (panel (handle ClickBackToLogin b)) = LoginView.
Proof.
  intros Hb Hfp. pose proof (reachable_reset_form_on_login_tab b Hb Hfp) as Htab.
  split; [exact Htab|]. split.
  - rewrite (proj1 (rendered_links _)). by rewrite Hfp.
  - unfold mode. cbn. by rewrite Htab.
Qed.

Lemma reset_form_only_over_login_tab_witness :
  let b := run [ClickRegisterTab; ClickSwitch; ClickForgotPassword] (mount ∅) in
  activeTab (panel b) = login
  /\ mode (panel (handle ClickBackToLogin b)) = LoginView.
Proof.
  intros b.
  destruct (reset_form_only_over_login_tab b) as (Ht & _ & Hm).
  - apply reachable_run.
  - vm_compute. reflexivity.
  - split; [exact Ht|exact Hm].
Defined.

Lemma reachable_loading_clean b :
  reachable b -> isLoading (panel b) = true ->
  errors (panel b) = ∅ /\ authError (panel b) = [].
Proof.
  intros Hb. pattern b. revert b Hb. apply reachable_enabled_ind.
  - intros ls. discriminate.
  - intros ev b _ IH Hen.
    destruct ev as [| | | | |name value| |i o]; cbn [handle]; try exact IH.
    + cbn. intros _. done.
    + cbn. intros _. done.
    + cbn [panel withPanel]. rewrite isLoading_handleInputChange.
      intros Hl. destruct (IH Hl) as [He Ha].
      unfold handleInputChange. cbn. rewrite He, lookup_empty. cbn.
      by rewrite He, Ha.
    + apply andb_prop in Hen as [_ Hen].
      apply rendered_submit_enabled in Hen as [_ Hoff].
      destruct ((validateForm (panel b)).2) eqn:Hv.
      * rewrite (handleSubmit_valid b Hv).
        cbn [panel withPanel setInflight isLoading errors authError
             setIsLoading setErrors setAuthError].
        intros _. split; [by apply validateForm_true_empty|done].
      * rewrite (handleSubmit_invalid b Hv). cbn. rewrite Hoff. discriminate.
    + destruct (inflight b !! i); [discriminate|exact IH].
Qed.

(** X26.  While a request is outstanding the form is clean: in every
    reachable state with [isLoading] set the error map is empty and there
    is no auth error, so neither a field error nor the banner is shown
    next to "Processing...". *)
Theorem no_errors_while_loading (b : Browser) :
  reachable b ->
  isLoading (panel b) = true ->
  errors (panel b) = ∅
  /\ authError (panel b) = []
  /\ rendered ErrorBox (panel b) = false
  /\ forall k focused,
       InputField.errorText (InputField.render focused (inputProps k (panel b)))
       = None.
Proof.
  intros Hb Hl. destruct (reachable_loading_clean b Hb Hl) as [He Ha].
  split; [exact He|]. split; [exact Ha|]. split.
  - by rewrite rendered_ErrorBox, Ha.
  - intros k focused. unfold InputField.render, inputProps. cbn.
    by rewrite He, lookup_empty.
Qed.

Lemma no_errors_while_loading_witness :
  let b := run ([typed "email" "bad-email"; Submit] ++ loginSubmitted) (mount ∅) in
  isLoading (panel b) = true /\ errors (panel b) = ∅.
Proof.
  intros b.
  assert (Hl : isLoading (panel b) = true) by (vm_compute; reflexivity).
  destruct (no_errors_while_loading b) as (He & _).
  - apply reachable_run.
  - exact Hl.
  - split; [exact Hl|exact He].
Defined.

(** ** The rules at concrete inputs *)

Lemma password_rule_witness :
  let st := panel (run [typed "email" "user@example.com"; typed "password" "abc"]
                     (mount ∅)) in
  errors (validateForm st).1 !! "password"
  = Some (lit "Password must be at least 6 characters").
Proof.
  intros st. destruct (password_rule st) as (_ & _ & Hshort & _).
  apply Hshort.
  - reflexivity.
  - vm_compute. discriminate.
  - vm_compute. lia.
Defined.

Lemma email_messages_witness :
  let st := panel (run [typed "email" "   "] (mount ∅)) in
  errors (validateForm st).1 !! "email" = Some (lit "Email is required").
Proof.
  intros st. destruct (email_messages st) as (Hblank & _).
  apply Hblank. vm_compute. repeat constructor.
Defined.

Lemma emailPattern_unanchored_witness :
  test emailPattern (lit "write to " ++ lit "a@b.c" ++ lit " please") = true.
Proof.
  destruct (emailPattern_unanchored (lit "a@b.c") (lit "write to ") (lit " please"))
    as (Hin & _).
  apply Hin. vm_compute. reflexivity.
Defined.

Lemma panel_writes_only_the_token_witness :
  let b := run loginSubmitted (mount (<["theme" := lit "dark"]> ∅)) in
  let b' := step (Settle 0 (Fulfilled (tokenResponse (lit "eyJhbGciOi")))) b in
  localStorage b' !! "theme" = Some (lit "dark").
Proof.
  intros b b'.
  destruct (panel_writes_only_the_token
              (Settle 0 (Fulfilled (tokenResponse (lit "eyJhbGciOi")))) b)
    as (_ & Hk & _).
  unfold b'. rewrite (Hk "theme") by discriminate. vm_compute. reflexivity.
Defined.

Lemma validateForm_accepts_iff_witness :
  let st := panel (run (take 2 loginSubmitted) (mount ∅)) in
  (validateForm st).2 = true
  /\ (6 <= length (field (formData st) "password"))%nat.
Proof.
  intros st. destruct (validateForm_accepts_iff st) as [Hfwd _].
  assert (Hv : (validateForm st).2 = true) by (vm_compute; reflexivity).
  split; [exact Hv|]. exact (proj1 (proj2 (Hfwd Hv))).
Defined.
